(** * Network-Mount-Monitoring: the recovery engine and its two monitors

    A shallow embedding of [network_mount_monitoring]:

    - [MountControl]          (mount_control.py): the systemd unit operations
      and the two composite procedures [restart_all_mounts] and [stop_mounts];
    - [DbusMonitoring]        (dbus_monitoring.py): the per-device and the
      global NetworkManager state handlers;
    - [JournalctlMonitoring]  (journal_monitoring.py): the body of the
      kernel-log loop.

    The Python code is asynchronous and talks to systemd and NetworkManager
    over D-Bus.  Every remote call is modelled as a question put to an
    environment that sees the whole history of earlier calls and answers with
    a value or with an exception; every call and its answer is appended to a
    log.  The three classes catch no exception, so a raised exception ends
    the running coroutine: this is the [Raise] branch of the monad below.  The [logger] calls only print and are left out, but for
    the evaluation of an argument that can raise. *)

From Stdlib Require Import ZArith Ascii.
From stdpp Require Import base strings list gmap.

(** ** Exceptions and the state-and-exception monad *)

Inductive exn : Type :=
| ValueError
| IndexError
| KeyError
| TypeError
| AttributeError
| DBusError (cause : string).

Inductive result (A : Type) : Type :=
| Ok (a : A)
| Raise (e : exn).
Arguments Ok {A} a.
Arguments Raise {A} e.

(** A coroutine over a mutable world [St]: it returns or raises, and leaves
    the world as it was at that moment. *)
Definition M (St A : Type) : Type := St -> result A * St.

Definition ret {St A} (a : A) : M St A := fun w => (Ok a, w).

Definition bind {St A B} (c : M St A) (k : A -> M St B) : M St B :=
  fun w => match c w with
           | (Ok a, w') => k a w'
           | (Raise e, w') => (Raise e, w')
           end.

Notation "'do' x <~ c ; k" := (bind c (fun x => k))
  (at level 10, x name, c at level 100, k at level 200).
Notation "'do' ' pat <~ c ; k" :=
  (bind c (fun x => match x with pat => k end))
  (at level 10, pat pattern, c at level 100, k at level 200).

(** [for x in xs: body x] *)
Fixpoint for_each {St A} (xs : list A) (body : A -> M St unit) : M St unit :=
  match xs with
  | [] => ret tt
  | x :: rest => do _ <~ body x; for_each rest body
  end.

(** ** mount_control.py *)

Module MountControl.

(** The four operations a [MountControl] performs on systemd units.  The
    job mode of [call_stop_unit] and [call_start_unit] is part of the call. *)
Inductive unit_call : Type :=
| Status (unit_name : string)
| ResetFailed (unit_name : string)
| Stop (unit_name mode : string)
| Start (unit_name mode : string).

Inductive reply : Type :=
| Fetched (active_state sub_state : string)
| Done
| Failed (e : exn).

Record event : Type := Ev { call : unit_call; outcome : reply }.

Definition log : Type := list event.

Definition calls_of (l : log) : list unit_call := map call l.

#[global] Instance unit_call_eq_dec : EqDecision unit_call.
Proof. solve_decision. Defined.

(** The systemd manager behind the bus.  Each entry answers one operation,
    given everything that was asked before. *)
Record systemd : Type := Systemd {
  unit_status : log -> string -> result (string * string);
  call_reset_failed_unit : log -> string -> result unit;
  call_stop_unit : log -> string -> string -> result unit;
  call_start_unit : log -> string -> string -> result unit
}.

Definition answered (r : result unit) : reply :=
  match r with Ok _ => Done | Raise e => Failed e end.

Section Controller.
Variable sd : systemd.
Variable list_of_mount : list string.

(** [get_unit_status]: the unit is looked up and its [ActiveState] and
    [SubState] properties are read; any of these round trips may raise. *)
Definition get_unit_status (unit_name : string) : M log (string * string) :=
  fun l =>
    match unit_status sd l unit_name with
    | Ok (active_state, sub_state) =>
        (Ok (active_state, sub_state),
         l ++ [Ev (Status unit_name) (Fetched active_state sub_state)])
    | Raise e => (Raise e, l ++ [Ev (Status unit_name) (Failed e)])
    end.

Definition reset_failed (unit_name : string) : M log unit :=
  fun l =>
    let r := call_reset_failed_unit sd l unit_name in
    (r, l ++ [Ev (ResetFailed unit_name) (answered r)]).

Definition stop_unit (unit_name : string) : M log unit :=
  fun l =>
    let r := call_stop_unit sd l unit_name "replace" in
    (r, l ++ [Ev (Stop unit_name "replace") (answered r)]).

Definition start_unit (unit_name : string) : M log unit :=
  fun l =>
    let r := call_start_unit sd l unit_name "replace" in
    (r, l ++ [Ev (Start unit_name "replace") (answered r)]).

(** First loop of [restart_all_mounts]: reset the failed mounts and
    collect the automounts that are not active. *)
Fixpoint collect_automounts (names : list string)
    (automount_to_restart : list string) : M log (list string) :=
  match names with
  | [] => ret automount_to_restart
  | name :: rest =>
      do '(active_state, _) <~ get_unit_status (name +:+ ".mount");
      do _ <~ (if String.eqb active_state "failed"
               then reset_failed (name +:+ ".mount")
               else ret tt);
      do '(active_state, _) <~ get_unit_status (name +:+ ".automount");
      collect_automounts rest
        (if negb (String.eqb active_state "active")
         then automount_to_restart ++ [name]
         else automount_to_restart)
  end.

Definition restart_all_mounts : M log unit :=
  do automount_to_restart <~ collect_automounts list_of_mount [];
  match automount_to_restart with
  | [] => ret tt
  | _ :: _ =>
      do _ <~ stop_unit "network-online.target";
      do _ <~ stop_unit "NetworkManager-wait-online.service";
      for_each automount_to_restart (fun name =>
        do _ <~ reset_failed (name +:+ ".automount");
        start_unit (name +:+ ".automount"))
  end.

Definition stop_mounts : M log unit :=
  for_each list_of_mount (fun name => stop_unit (name +:+ ".mount")).

End Controller.

(** A manager on which nothing ever fails and every unit keeps the state
    given by [states]. *)
Definition steady (states : string -> string * string) : systemd :=
  {| unit_status := fun _ u => Ok (states u);
     call_reset_failed_unit := fun _ _ => Ok tt;
     call_stop_unit := fun _ _ _ => Ok tt;
     call_start_unit := fun _ _ _ => Ok tt |}.

(** The events a coroutine appends when started on the log [l]. *)
Definition emitted {A} (c : M log A) (l : log) : log :=
  drop (length l) (snd (c l)).

Definition stop_call (name : string) : unit_call :=
  Stop (name +:+ ".mount") "replace".



(** The two read-only checks [restart_all_mounts] makes for a mount. *)
Definition status_checks (name : string) : list unit_call :=
  [Status (name +:+ ".mount"); Status (name +:+ ".automount")].

Definition is_status (c : unit_call) : Prop :=
  match c with Status _ => True | _ => False end.

Definition automounts_all_active (sd : systemd) (mounts : list string)
    : Prop :=
  forall h name, name ∈ mounts ->
    exists sub, unit_status sd h (name +:+ ".automount") = Ok ("active", sub).

Definition mounts_none_failed (sd : systemd) (mounts : list string) : Prop :=
  forall h name, name ∈ mounts ->
    exists active sub,
      unit_status sd h (name +:+ ".mount") = Ok (active, sub) /\
      active <> "failed".

(** C4 as the specification words it: all automounts active is enough for
    a run of status checks only. *)
Definition idempotent_when_automounts_active (sd : systemd)
    (mounts : list string) (l : log) : Prop :=
  automounts_all_active sd mounts ->
  calls_of (emitted (restart_all_mounts sd mounts) l) =
    flat_map status_checks mounts.

Definition failed_mount_states (u : string) : string * string :=
  if String.eqb u "data.mount" then ("failed", "failed")
  else ("active", "waiting").

Definition all_active_states (u : string) : string * string :=
  ("active", "running").

(** Counting the stop requests addressed to one unit. *)
Definition stops_unit (u : string) (c : unit_call) : bool :=
  match c with
  | Stop u' _ => String.eqb u' u
  | _ => false
  end.

Definition count_stops (u : string) (evs : log) : nat :=
  length (List.filter (stops_unit u) (calls_of evs)).

(** Some configured automount was fetched with a state other than active. *)
Definition automount_fetched_inactive (mounts : list string) (evs : log)
    : Prop :=
  exists name active sub,
    name ∈ mounts /\
    Ev (Status (name +:+ ".automount")) (Fetched active sub) ∈ evs /\
    active <> "active".

Definition never_fails (sd : systemd) : Prop :=
  (forall h u, call_reset_failed_unit sd h u = Ok tt) /\
  (forall h u m, call_stop_unit sd h u m = Ok tt) /\
  (forall h u m, call_start_unit sd h u m = Ok tt).

Definition data_states (u : string) : string * string :=
  if String.eqb u "data.mount" then ("failed", "failed")
  else ("inactive", "dead").

(** The calls of the first loop of [restart_all_mounts] for the configured
    mounts: a status read of either unit, or the reset of a mount unit. *)
Definition is_read (mounts : list string) (c : unit_call) : Prop :=
  exists name, name ∈ mounts /\
    (c = Status (name +:+ ".mount") \/
     c = ResetFailed (name +:+ ".mount") \/
     c = Status (name +:+ ".automount")).

Definition restart_pair (name : string) : list unit_call :=
  [ResetFailed (name +:+ ".automount");
   Start (name +:+ ".automount") "replace"].

(** The calls of the second phase when it restarts [names]. *)
Definition restart_calls (names : list string) : list unit_call :=
  match names with
  | [] => []
  | _ :: _ =>
      Stop "network-online.target" "replace"
      :: Stop "NetworkManager-wait-online.service" "replace"
      :: flat_map restart_pair names
  end.

Definition succeeded (ev : event) : Prop :=
  match outcome ev with Failed _ => False | _ => True end.

(** A run that ends with its first failing call: a result is preceded by
    successes only, an exception is the one of the last call made. *)
Definition fail_stop {A} (r : result A) (evs : log) : Prop :=
  match r with
  | Ok _ => Forall succeeded evs
  | Raise e =>
      exists pre ev,
        evs = pre ++ [ev] /\ Forall succeeded pre /\ outcome ev = Failed e
  end.

(** What [restart_all_mounts] asks of a steady manager, read off the unit
    states. *)
Definition reads_of (states : string -> string * string) (name : string)
    : list unit_call :=
  Status (name +:+ ".mount")
  :: (if String.eqb (fst (states (name +:+ ".mount"))) "failed"
      then [ResetFailed (name +:+ ".mount")] else [])
  ++ [Status (name +:+ ".automount")].

Definition needs_restart (states : string -> string * string) (name : string)
    : bool :=
  negb (String.eqb (fst (states (name +:+ ".automount"))) "active").

Definition steady_calls (states : string -> string * string)
    (mounts : list string) : list unit_call :=
  flat_map (reads_of states) mounts
  ++ restart_calls (List.filter (needs_restart states) mounts).

(** A manager whose start requests are refused. *)
Definition start_refused : systemd :=
  {| unit_status := fun _ _ => Ok ("inactive", "dead");
     call_reset_failed_unit := fun _ _ => Ok tt;
     call_stop_unit := fun _ _ _ => Ok tt;
     call_start_unit := fun _ _ _ => Raise (DBusError "refused") |}.

(** Every status read of a configured unit is answered. *)
Definition reads_succeed (sd : systemd) (mounts : list string) : Prop :=
  forall h name, name ∈ mounts ->
    (exists active sub,
        unit_status sd h (name +:+ ".mount") = Ok (active, sub)) /\
    (exists active sub,
        unit_status sd h (name +:+ ".automount") = Ok (active, sub)).

(** The manager reports some configured automount in a state other than
    active. *)
Definition some_automount_inactive (sd : systemd) (mounts : list string)
    : Prop :=
  exists name, name ∈ mounts /\
    forall h active sub,
      unit_status sd h (name +:+ ".automount") = Ok (active, sub) ->
      active <> "active".

(** The manager reports every configured automount active. *)
Definition every_automount_active (sd : systemd) (mounts : list string)
    : Prop :=
  forall h name active sub, name ∈ mounts ->
    unit_status sd h (name +:+ ".automount") = Ok (active, sub) ->
    active = "active".

Definition media_failed_states (u : string) : string * string :=
  if String.eqb u "media.automount" then ("failed", "failed")
  else ("active", "running").

End MountControl.

(** ** dbus_monitoring.py *)

(** What a monitor does with the two callables it was built with: the stop
    handler is awaited on the spot, and its outcome is the awaiting
    coroutine's; the restart handler is only ever handed to the event loop as
    a new task. *)
Inductive handler_call : Type :=
| awaited_stop_handler (outcome : result unit)
| created_task_restart_handler.

Definition is_stop_await (c : handler_call) : bool :=
  match c with awaited_stop_handler _ => true | _ => false end.

Definition is_restart_task (c : handler_call) : bool :=
  match c with created_task_restart_handler => true | _ => false end.

Definition stop_awaits (calls : list handler_call) : nat :=
  length (List.filter is_stop_await calls).

Definition restart_tasks (calls : list handler_call) : nat :=
  length (List.filter is_restart_task calls).

(** The two enumerations of sdbus_async.networkmanager.enums used by the
    monitor, with the values of the NetworkManager D-Bus interface.  Both
    are integer enumerations: an integer equals the member of that value. *)
Module DeviceState.
Inductive t : Type :=
| UNKNOWN | UNMANAGED | UNAVAILABLE | DISCONNECTED | PREPARE | CONFIG
| NEED_AUTH | IP_CONFIG | IP_CHECK | SECONDARIES | ACTIVATED
| DEACTIVATING | FAILED.

Definition value (s : t) : Z :=
  match s with
  | UNKNOWN => 0 | UNMANAGED => 10 | UNAVAILABLE => 20
  | DISCONNECTED => 30 | PREPARE => 40 | CONFIG => 50 | NEED_AUTH => 60
  | IP_CONFIG => 70 | IP_CHECK => 80 | SECONDARIES => 90
  | ACTIVATED => 100 | DEACTIVATING => 110 | FAILED => 120
  end%Z.
End DeviceState.

Module NetworkManagerState.
Inductive t : Type :=
| UNKNOWN | ASLEEP | DISCONNECTED | DISCONNECTING | CONNECTING
| CONNECTED_LOCAL | CONNECTED_SITE | GLOBAL.

#[global] Instance eq_dec : EqDecision t.
Proof. solve_decision. Defined.

Definition value (s : t) : Z :=
  match s with
  | UNKNOWN => 0 | ASLEEP => 10 | DISCONNECTED => 20 | DISCONNECTING => 30
  | CONNECTING => 40 | CONNECTED_LOCAL => 50 | CONNECTED_SITE => 60
  | GLOBAL => 70
  end%Z.

Definition members : list t :=
  [UNKNOWN; ASLEEP; DISCONNECTED; DISCONNECTING; CONNECTING;
   CONNECTED_LOCAL; CONNECTED_SITE; GLOBAL].

(** [NetworkManagerState(state)]: the member with that value, or
    [ValueError]. *)
Definition of_int (state : Z) : result t :=
  match List.find (fun s => Z.eqb (value s) state) members with
  | Some s => Ok s
  | None => Raise ValueError
  end.
End NetworkManagerState.

Module DbusMonitoring.

Inductive MessageType : Type :=
| METHOD_CALL | METHOD_RETURN | ERROR | SIGNAL.

#[global] Instance MessageType_eq_dec : EqDecision MessageType.
Proof. solve_decision. Defined.

(** The fields of a bus message the monitor reads.  [interface] is absent
    on replies; [body] holds the arguments, for a device StateChanged
    signal the new state, the old state and the reason. *)
Record Message : Type := {
  message_type : MessageType;
  interface : option string;
  path : string;
  body : list Z
}.

Definition DEVICE_ONLINE_STATE : list DeviceState.t :=
  [DeviceState.ACTIVATED; DeviceState.IP_CHECK; DeviceState.SECONDARIES].

Definition GLOBAL_ONLINE_STATE : list NetworkManagerState.t :=
  [NetworkManagerState.CONNECTED_LOCAL; NetworkManagerState.CONNECTED_SITE;
   NetworkManagerState.GLOBAL].

(** The monitor's own fields, and next to them the calls it has made to
    its two handlers. *)
Record state : Type := State {
  device_list : gmap string bool;
  current_global_state : option bool;
  calls : list handler_call
}.

(** [__init__] *)
Definition init : state :=
  {| device_list := ∅; current_global_state := None; calls := [] |}.

(** [s.split(sep)] *)
Fixpoint split (sep : Ascii.ascii) (s : string) : list string :=
  match s with
  | EmptyString => [EmptyString]
  | String c rest =>
      if Ascii.eqb c sep then EmptyString :: split sep rest
      else match split sep rest with
           | [] => [String c EmptyString]
           | first :: others => String c first :: others
           end
  end.

Definition get_device_id (message : Message) : string :=
  List.last (split "/"%char (path message)) EmptyString.

(** [x in DEVICE_ONLINE_STATE], for an integer [x]. *)
Definition in_device_online_state (x : Z) : bool :=
  existsb (fun s => Z.eqb x (DeviceState.value s)) DEVICE_ONLINE_STATE.

Definition in_global_online_state (s : NetworkManagerState.t) : bool :=
  bool_decide (s ∈ GLOBAL_ONLINE_STATE).

Definition is_device_signal (message : Message) : bool :=
  bool_decide (message_type message = SIGNAL) &&
  bool_decide (interface message = Some "org.freedesktop.NetworkManager.Device").

Section Monitor.
(** The stop handler the monitor was built with: whether awaiting it
    returns or raises, given the calls made so far. *)
Variable stop_handler : list handler_call -> result unit.

Definition get : M state state := fun w => (Ok w, w).

(** [xs[0]] *)
Definition first_item (xs : list Z) : M state Z :=
  fun w => match xs with
           | [] => (Raise IndexError, w)
           | x :: _ => (Ok x, w)
           end.

Definition set_device (device_id : string) (device_state : bool)
    : M state unit :=
  fun w => (Ok tt,
            {| device_list := <[device_id := device_state]> (device_list w);
               current_global_state := current_global_state w;
               calls := calls w |}).

Definition set_current_global_state (online : bool) : M state unit :=
  fun w => (Ok tt,
            {| device_list := device_list w;
               current_global_state := Some online;
               calls := calls w |}).

(** [asyncio.get_running_loop().create_task(self.restart_handler())] *)
Definition create_task_restart_handler : M state unit :=
  fun w => (Ok tt,
            {| device_list := device_list w;
               current_global_state := current_global_state w;
               calls := calls w ++ [created_task_restart_handler] |}).

(** [await self.stop_handler()] *)
Definition await_stop_handler : M state unit :=
  fun w => let r := stop_handler (calls w) in
           (r,
            {| device_list := device_list w;
               current_global_state := current_global_state w;
               calls := calls w ++ [awaited_stop_handler r] |}).

(** [NetworkManagerState(state)] *)
Definition to_network_state (x : Z) : M state NetworkManagerState.t :=
  fun w => (NetworkManagerState.of_int x, w).

Definition device_state_changed (message : Message) : M state bool :=
  if is_device_signal message then
    let device_id := get_device_id message in
    do new_state <~ first_item (body message);
    let device_state := in_device_online_state new_state in
    do self <~ get;
    do _ <~ (if match device_list self !! device_id with
                | None => true
                | Some recorded => negb (Bool.eqb recorded device_state)
                end
             then
               do _ <~ set_device device_id device_state;
               if device_state then create_task_restart_handler
               else ret tt
             else ret tt);
    ret false
  else ret false.

Definition global_state_changed (x : Z) : M state unit :=
  do network_state <~ to_network_state x;
  do self <~ get;
  let online := in_global_online_state network_state in
  if match current_global_state self with
     | None => true
     | Some recorded => negb (Bool.eqb recorded online)
     end
  then
    do _ <~ set_current_global_state online;
    if negb online then await_stop_handler else ret tt
  else ret tt.

(** The bus hands the signals to a handler one at a time; an exception
    raised while handling one of them ends that call only. *)
Fixpoint deliver {A B} (handler : A -> M state B) (signals : list A)
    (w : state) : state :=
  match signals with
  | [] => w
  | x :: rest => deliver handler rest (snd (handler x w))
  end.

End Monitor.

Definition device_signal (p : string) (new_state : Z) : Message :=
  {| message_type := SIGNAL;
     interface := Some "org.freedesktop.NetworkManager.Device";
     path := p;
     body := [new_state; 0; 0]%Z |}.

(** What a delivered value records, if it names a known state: online or
    not. *)
Definition derived_online (x : Z) : option bool :=
  match NetworkManagerState.of_int x with
  | Ok network_state => Some (in_global_online_state network_state)
  | Raise _ => None
  end.

(** The transitions into offline of a sequence of derived values: an
    offline value observed while the last recorded value is online, or while
    nothing is recorded yet. *)
Fixpoint offline_transitions (recorded : option bool) (observed : list bool)
    : nat :=
  match observed with
  | [] => 0
  | online :: rest =>
      (if negb online && negb (bool_decide (recorded = Some false))
       then 1 else 0)
      + offline_transitions (Some online) rest
  end.

(** What a message tells about a device, if it is a device signal carrying
    a state: the device and whether it is online. *)
Definition observation (message : Message) : option (string * bool) :=
  if is_device_signal message then
    match body message with
    | new_state :: _ =>
        Some (get_device_id message, in_device_online_state new_state)
    | [] => None
    end
  else None.

(** The value last observed for a device: in the signals seen so far, the
    latest one first, and before them in what was already recorded. *)
Definition last_recorded (recorded : gmap string bool)
    (earlier : list (string * bool)) (device_id : string) : option bool :=
  match List.find (fun o => String.eqb (fst o) device_id) (rev earlier) with
  | Some o => Some (snd o)
  | None => recorded !! device_id
  end.

(** The offline-to-online edges of a sequence of observations, device by
    device: an online observation of a device whose last observed value is
    offline, or that was never seen. *)
Fixpoint online_edges (recorded : gmap string bool)
    (earlier later : list (string * bool)) : nat :=
  match later with
  | [] => 0
  | (device_id, online) :: rest =>
      (if online
          && negb (bool_decide (last_recorded recorded earlier device_id
                                = Some true))
       then 1 else 0)
      + online_edges recorded (earlier ++ [(device_id, online)]) rest
  end.

(** C7 as the specification words it: an unknown value is swallowed, the
    handler returns and the monitor is as before. *)
Definition ignores_unknown_state (stop_handler : list handler_call -> result unit)
    (x : Z) (w : state) : Prop :=
  (forall s, NetworkManagerState.value s <> x) ->
  global_state_changed stop_handler x w = (Ok tt, w).

(** C9 as the specification words it: every message is answered with
    False. *)
Definition never_consumes (message : Message) (w : state) : Prop :=
  fst (device_state_changed message w) = Ok false.

Definition offline_recorded : state :=
  {| device_list := {[ "2" := true ]};
     current_global_state := Some false;
     calls := [awaited_stop_handler (Ok tt)] |}.

Definition device_2_online : state :=
  {| device_list := {[ "2" := true ]};
     current_global_state := None;
     calls := [created_task_restart_handler] |}.

Definition bodyless_device_signal : Message :=
  {| message_type := SIGNAL;
     interface := Some "org.freedesktop.NetworkManager.Device";
     path := "/org/freedesktop/NetworkManager/Devices/2";
     body := [] |}.

Definition state_changed_signal (new_state : Z) : Message :=
  {| message_type := SIGNAL;
     interface := Some "org.freedesktop.NetworkManager";
     path := "/org/freedesktop/NetworkManager";
     body := [new_state] |}.

(** [c in s], for a character [c]. *)
Fixpoint occurs (c : Ascii.ascii) (s : string) : bool :=
  match s with
  | EmptyString => false
  | String d rest => Ascii.eqb d c || occurs c rest
  end.

(** A stop handler that times out the first time it is awaited. *)
Definition stop_times_out_once (cs : list handler_call) : result unit :=
  match cs with
  | [] => Raise (DBusError "timeout")
  | _ :: _ => Ok tt
  end.

End DbusMonitoring.

(** ** journal_monitoring.py *)

Module JournalctlMonitoring.

(** [needle in s] *)
Fixpoint contains (needle s : string) : bool :=
  match s with
  | EmptyString => String.prefix needle EmptyString
  | String _ rest => String.prefix needle s || contains needle rest
  end.

(** The test of the loop on the text of a message. *)
Definition stall_signature (message : string) : bool :=
  String.prefix "CIFS: VFS:" message && contains "has not responded" message.

(** The value of a field of a journal entry: the reader gives text, the raw
    bytes of a value that is no valid text, or an object of another kind (a
    date for __REALTIME_TIMESTAMP, an integer for PRIORITY). *)
Inductive field : Type :=
| Text (s : string)
| Bytes (b : string)
| Other (repr : string).

(** A journal entry is a dictionary from field names to values.  It makes
    the loop await the stop handler when its message is a text with the
    stall signature. *)
Definition matches (entry : gmap string field) : bool :=
  match entry !! "MESSAGE" with
  | Some (Text message) => stall_signature message
  | _ => false
  end.

Definition matching (batch : list (gmap string field)) : nat :=
  length (List.filter matches batch).

Section Loop.
Context {W : Type}.
(** The stop handler, as a coroutine over the world [W]. *)
Variable stop_handler : M W unit.

Definition raise {A} (e : exn) : M W A := fun w => (Raise e, w).

(** [entry[key]] *)
Definition getitem (entry : gmap string field) (key : string) : M W field :=
  fun w => match entry !! key with
           | Some v => (Ok v, w)
           | None => (Raise KeyError, w)
           end.

(** The [for entry in self.journal] loop of [start]: the entries drained in
    one wake, in arrival order.  [startswith] with a text argument raises
    TypeError on bytes and is no attribute of the other kinds; the arguments
    of [logger.debug], the timestamp first, are evaluated before the stop
    handler is awaited. *)
Definition drain_with (batch : list (gmap string field)) : M W unit :=
  for_each batch (fun entry =>
    do message <~ getitem entry "MESSAGE";
    match message with
    | Text text =>
        if String.prefix "CIFS: VFS:" text
           && contains "has not responded" text
        then
          do _ <~ getitem entry "__REALTIME_TIMESTAMP";
          do _ <~ getitem entry "MESSAGE";
          stop_handler
        else ret tt
    | Bytes _ => raise TypeError
    | Other _ => raise AttributeError
    end).

End Loop.

Section Monitor.
(** The stop handler the monitor was built with: whether awaiting it
    returns or raises, given the calls made so far. *)
Variable stop_handler : list handler_call -> result unit.

(** [await self.stop_handler()] *)
Definition await_stop_handler : M (list handler_call) unit :=
  fun w => let r := stop_handler w in (r, w ++ [awaited_stop_handler r]).

Definition drain (batch : list (gmap string field))
    : M (list handler_call) unit :=
  drain_with await_stop_handler batch.

(** [start] over the successive wakes of its [while] loop. *)
Definition start (wakes : list (list (gmap string field)))
    : M (list handler_call) unit :=
  for_each wakes drain.

End Monitor.

Definition emitted {A} (c : M (list handler_call) A) (w : list handler_call)
    : list handler_call :=
  drop (length w) (snd (c w)).

(** C3 as the specification words it: a batch with a matching entry makes
    exactly one stop. *)
Definition one_stop_per_batch (stop_handler : list handler_call -> result unit)
    (batch : list (gmap string field)) (w : list handler_call) : Prop :=
  0 < matching batch ->
  stop_awaits (emitted (drain stop_handler batch) w) = 1.

(** An entry as the kernel logs it when a CIFS server stops answering. *)
Definition cifs_entry (server : string) : gmap string field :=
  <[ "__REALTIME_TIMESTAMP" := Other "datetime(2024, 6, 1, 12, 0, 0)" ]>
    {[ "MESSAGE" := Text ("CIFS: VFS: \\" +:+ server +:+ " has not responded in 180 seconds. Reconnecting...") ]}.

(** The exception one entry ends the loop with, if any: no MESSAGE, a
    MESSAGE that is no text, or a stall message without timestamp. *)
Definition entry_error (entry : gmap string field) : option exn :=
  match entry !! "MESSAGE" with
  | None => Some KeyError
  | Some (Bytes _) => Some TypeError
  | Some (Other _) => Some AttributeError
  | Some (Text message) =>
      if stall_signature message then
        match entry !! "__REALTIME_TIMESTAMP" with
        | None => Some KeyError
        | Some _ => None
        end
      else None
  end.

End JournalctlMonitoring.

(** ** __main__.py *)

Module Main.

(** [JournalctlMonitoring(mount_controller.stop_mounts)]: the kernel-log
    loop with the stop handler [main] gives it, over the log of the unit
    operations. *)
Definition journal_drain (sd : MountControl.systemd)
    (NETWORK_MOUNT_NAMES : list string)
    (batch : list (gmap string JournalctlMonitoring.field))
    : M MountControl.log unit :=
  JournalctlMonitoring.drain_with
    (MountControl.stop_mounts sd NETWORK_MOUNT_NAMES) batch.

End Main.

(** * Properties *)

(** ** The recovery engine *)

Module MountControlFacts.
Import MountControl.

Example restart_data_run :
  calls_of (snd (restart_all_mounts
    (steady data_states) ["data"] [])) =
  [Status "data.mount"; ResetFailed "data.mount"; Status "data.automount";
   Stop "network-online.target" "replace";
   Stop "NetworkManager-wait-online.service" "replace";
   ResetFailed "data.automount"; Start "data.automount" "replace"].
Proof. reflexivity. Qed.

Lemma steady_never_fails states : never_fails (steady states).
Proof. repeat split. Qed.

(** C1. With the single mount "data", a failed data.mount and an inactive
    data.automount, on a manager whose mutating calls succeed,
    [restart_all_mounts] returns after exactly these seven unit operations,
    in this order: status(data.mount), reset_failed(data.mount),
    status(data.automount), stop(network-online.target),
    stop(NetworkManager-wait-online.service), reset_failed(data.automount),
    start(data.automount). *)
Theorem restart_failed_data_sequence (sd : systemd) (l : log) :
  (forall h, exists sub,
      unit_status sd h "data.mount" = Ok ("failed", sub)) ->
  (forall h, exists sub,
      unit_status sd h "data.automount" = Ok ("inactive", sub)) ->
  never_fails sd ->
  exists evs,
    restart_all_mounts sd ["data"] l = (Ok tt, l ++ evs) /\
    calls_of evs =
      [Status "data.mount"; ResetFailed "data.mount";
       Status "data.automount";
       Stop "network-online.target" "replace";
       Stop "NetworkManager-wait-online.service" "replace";
       ResetFailed "data.automount"; Start "data.automount" "replace"].
Proof.
  intros Hmount Hauto (Hreset & Hstop & Hstart).
  unfold restart_all_mounts, collect_automounts, for_each.
  change ("data" +:+ ".mount") with "data.mount".
  change ("data" +:+ ".automount") with "data.automount".
  unfold bind, ret, get_unit_status, reset_failed, stop_unit, start_unit.
  destruct (Hmount l) as [sub1 ->]; cbn.
  rewrite Hreset; cbn.
  match goal with |- context [unit_status sd ?h "data.automount"] =>
    destruct (Hauto h) as [sub2 ->] end; cbn.
  rewrite !Hstop, Hreset, Hstart; cbn.
  eexists; split.
  - rewrite <- !(assoc_L (++)). reflexivity.
  - reflexivity.
Qed.

Lemma restart_failed_data_sequence_witness :
  exists evs,
    restart_all_mounts (steady data_states) ["data"] [] = (Ok tt, [] ++ evs) /\
    calls_of evs =
      [Status "data.mount"; ResetFailed "data.mount";
       Status "data.automount";
       Stop "network-online.target" "replace";
       Stop "NetworkManager-wait-online.service" "replace";
       ResetFailed "data.automount"; Start "data.automount" "replace"].
Proof.
  apply (restart_failed_data_sequence (steady data_states) []).
  - intros h; exists "failed"; reflexivity.
  - intros h; exists "dead"; reflexivity.
  - apply steady_never_fails.
Defined.



Lemma collect_automounts_quiet (sd : systemd) (names acc : list string)
    (l : log) :
  automounts_all_active sd names ->
  mounts_none_failed sd names ->
  exists evs,
    collect_automounts sd names acc l = (Ok acc, l ++ evs) /\
    calls_of evs = flat_map status_checks names.
Proof.
  revert l. induction names as [|name rest IH]; intros l Hauto Hmount.
  - exists []. cbn. by rewrite app_nil_r.
  - cbn [collect_automounts]. unfold bind, get_unit_status.
    destruct (Hmount l name) as (a & sub & -> & Hnf); [set_solver |].
    apply String.eqb_neq in Hnf. rewrite Hnf. unfold ret at 1.
    match goal with |- context [unit_status sd ?h (name +:+ ".automount")] =>
      destruct (Hauto h name) as (sub' & ->); [set_solver |] end.
    change (negb (String.eqb "active" "active")) with false. cbv iota.
    match goal with |- context [collect_automounts sd rest acc ?h] =>
      destruct (IH h) as (evs & Hrun & Hcalls) end.
    { intros h n Hn. apply Hauto. set_solver. }
    { intros h n Hn. apply Hmount. set_solver. }
    eexists. split.
    + unfold collect_automounts in Hrun |- *. rewrite Hrun.
      rewrite <- !(assoc_L (++)). reflexivity.
    + unfold calls_of in *. cbn. by rewrite Hcalls.
Qed.

(** C4, counterexample: data.automount is active but data.mount is failed;
    the run resets data.mount, a mutating call among the status checks. *)
Lemma restart_resets_failed_mount_when_automount_active :
  automounts_all_active (steady failed_mount_states) ["data"] /\
  calls_of (emitted (restart_all_mounts (steady failed_mount_states) ["data"]) []) =
    [Status "data.mount"; ResetFailed "data.mount"; Status "data.automount"] /\
  ~ idempotent_when_automounts_active (steady failed_mount_states) ["data"] [].
Proof.
  assert (Hact : automounts_all_active (steady failed_mount_states) ["data"]).
  { intros h name Hin. apply list_elem_of_singleton in Hin as ->.
    exists "waiting". reflexivity. }
  split; [exact Hact |]. split; [reflexivity |].
  intros H. specialize (H Hact). vm_compute in H. discriminate H.
Qed.

(** C4, amended: when every configured automount is fetched as active and
    no configured mount unit is fetched as failed, [restart_all_mounts]
    returns after exactly the two status checks per mount, in list order:
    every call it makes is a read-only status call. *)
Theorem restart_all_mounts_idempotent (sd : systemd) (mounts : list string)
    (l : log) :
  automounts_all_active sd mounts ->
  mounts_none_failed sd mounts ->
  exists evs,
    restart_all_mounts sd mounts l = (Ok tt, l ++ evs) /\
    calls_of evs = flat_map status_checks mounts /\
    Forall is_status (calls_of evs).
Proof.
  intros Hauto Hmount.
  destruct (collect_automounts_quiet sd mounts [] l Hauto Hmount)
    as (evs & Hrun & Hcalls).
  exists evs. split; [| split]; [| exact Hcalls |].
  - unfold restart_all_mounts, bind. by rewrite Hrun.
  - rewrite Hcalls. clear. induction mounts as [|n rest IH]; cbn.
    + constructor.
    + repeat constructor. exact IH.
Qed.

Lemma restart_all_mounts_idempotent_witness :
  exists evs,
    restart_all_mounts (steady all_active_states) ["nas"; "media"] [] =
      (Ok tt, [] ++ evs) /\
    calls_of evs = flat_map status_checks ["nas"; "media"] /\
    Forall is_status (calls_of evs).
Proof.
  apply (restart_all_mounts_idempotent (steady all_active_states)
           ["nas"; "media"] []).
  - intros h name _. exists "running". reflexivity.
  - intros h name _. exists "active", "running". split; [reflexivity |].
    discriminate.
Defined.

Lemma string_length_app (s1 s2 : string) :
  String.length (s1 +:+ s2) = String.length s1 + String.length s2.
Proof.
  induction s1 as [|c s1 IH]; [done |].
  change (S (String.length (s1 +:+ s2)) =
          S (String.length s1 + String.length s2)).
  by rewrite IH.
Qed.

(** A mount unit and an automount unit never share their name. *)
Lemma mount_not_automount (n1 n2 : string) :
  n1 +:+ ".mount" <> n2 +:+ ".automount".
Proof.
  intros E.
  assert (Hlen : String.length n1 = String.length n2 + 4).
  { apply (f_equal String.length) in E.
    rewrite !string_length_app in E. cbn in E. lia. }
  revert n1 E Hlen. induction n2 as [|c n2 IH]; intros n1 E Hlen.
  - destruct n1 as [|a [|b [|c [|d [|e n1]]]]]; cbn in Hlen; try lia.
    discriminate E.
  - destruct n1 as [|a n1]; cbn in Hlen; [lia |].
    injection E as _ E. apply (IH n1 E). lia.
Qed.

Lemma count_stops_app (u : string) (evs1 evs2 : log) :
  count_stops u (evs1 ++ evs2) = count_stops u evs1 + count_stops u evs2.
Proof.
  unfold count_stops, calls_of.
  by rewrite map_app, List.filter_app, length_app.
Qed.

Lemma automount_fetched_inactive_app (mounts : list string)
    (evs more : log) :
  automount_fetched_inactive mounts evs ->
  automount_fetched_inactive mounts (evs ++ more).
Proof.
  intros (n & a & s & Hn & Hev & Ha). exists n, a, s.
  repeat split; auto. set_solver.
Qed.

(** What the first loop leaves in the log: no stop request, and it records
    a name exactly when an automount was fetched with a state other than
    active. *)
Lemma collect_automounts_log (sd : systemd) (names acc : list string)
    (l : log) :
  exists r evs,
    collect_automounts sd names acc l = (r, l ++ evs) /\
    (forall u, count_stops u evs = 0) /\
    (forall acc', r = Ok acc' ->
       exists extra, acc' = acc ++ extra /\
         (extra <> [] -> automount_fetched_inactive names evs) /\
         (forall n a s,
            Ev (Status (n +:+ ".automount")) (Fetched a s) ∈ evs ->
            a <> "active" -> extra <> [])).
Proof.
  revert acc l. induction names as [|name rest IH]; intros acc l.
  - exists (Ok acc), []. cbn. rewrite app_nil_r.
    split; [done |]. split; [done |].
    intros acc' [= <-]. exists []. rewrite app_nil_r.
    split; [done |]. split; [done |].
    intros n a s Hin. by apply elem_of_nil in Hin.
  - cbn [collect_automounts]. unfold bind at 1, get_unit_status at 1.
    destruct (unit_status sd l (name +:+ ".mount")) as [[a0 s0]|e] eqn:E0.
    2:{ eexists _, [_]. split; [reflexivity |]. split; [done |].
        intros acc' [=]. }
    set (ev0 := Ev (Status (name +:+ ".mount")) (Fetched a0 s0)).
    assert (Hreset : exists r1 evs1,
      (if String.eqb a0 "failed"
       then reset_failed sd (name +:+ ".mount") else ret tt) (l ++ [ev0]) =
        (r1, (l ++ [ev0]) ++ evs1) /\
      (forall u, count_stops u evs1 = 0) /\
      (forall ev, ev ∈ evs1 -> exists u, call ev = ResetFailed u)).
    { destruct (String.eqb a0 "failed").
      - eexists _, [_]. split; [reflexivity |]. split; [done |].
        intros ev Hev. apply list_elem_of_singleton in Hev as ->. by eexists.
      - exists (Ok tt), []. cbn. rewrite app_nil_r. split; [done |].
        split; [done |]. intros ev Hev. by apply elem_of_nil in Hev. }
    destruct Hreset as (r1 & evs1 & Hrun1 & Hcnt1 & Hev1).
    unfold bind at 1. rewrite Hrun1.
    destruct r1 as [[]|e1].
    2:{ exists (Raise e1), (ev0 :: evs1). split.
        - by rewrite <- (assoc_L (++)).
        - split; [| intros acc' [=]].
          intros u. change (ev0 :: evs1) with ([ev0] ++ evs1).
          rewrite count_stops_app, Hcnt1. done. }
    unfold bind at 1, get_unit_status at 1.
    destruct (unit_status sd ((l ++ [ev0]) ++ evs1) (name +:+ ".automount"))
      as [[a1 s1]|e2] eqn:E2.
    2:{ exists (Raise e2),
          (ev0 :: evs1 ++ [Ev (Status (name +:+ ".automount")) (Failed e2)]).
        split.
        - f_equal. rewrite <- !(assoc_L (++)). reflexivity.
        - split; [| intros acc' [=]].
          intros u.
          change (ev0 :: evs1 ++ ?t) with ([ev0] ++ evs1 ++ t).
          rewrite !count_stops_app, Hcnt1. done. }
    set (ev1 := Ev (Status (name +:+ ".automount")) (Fetched a1 s1)).
    set (new := if negb (String.eqb a1 "active") then [name] else []).
    assert (Hacc : (if negb (String.eqb a1 "active")
                    then acc ++ [name] else acc) = acc ++ new).
    { unfold new. destruct (negb _); [done | by rewrite app_nil_r]. }
    rewrite Hacc.
    destruct (IH (acc ++ new) (((l ++ [ev0]) ++ evs1) ++ [ev1]))
      as (r & evs & Hrun & Hcnt & Hok).
    exists r, (ev0 :: evs1 ++ ev1 :: evs). split; [| split].
    + rewrite Hrun. f_equal. rewrite <- !(assoc_L (++)). reflexivity.
    + intros u.
      change (ev0 :: evs1 ++ ev1 :: evs)
        with ([ev0] ++ evs1 ++ [ev1] ++ evs).
      rewrite !count_stops_app, Hcnt1, Hcnt. done.
    + intros acc' ->. destruct (Hok acc' eq_refl) as (extra & -> & Hfwd & Hbwd).
      exists (new ++ extra). split; [by rewrite (assoc_L (++)) |]. split.
      * intros Hne. destruct (String.eqb_spec a1 "active") as [Ha1|Ha1].
        -- cbn in new. subst new. cbn in Hne.
           destruct (Hfwd Hne) as (n & a & s & Hn & Hev & Ha).
           exists n, a, s. repeat split; auto; set_solver.
        -- exists name, a1, s1. repeat split; auto; set_solver.
      * intros n a s Hin Ha.
        change (ev0 :: evs1 ++ ev1 :: evs)
          with ([ev0] ++ evs1 ++ [ev1] ++ evs) in Hin.
        rewrite !elem_of_app in Hin.
        destruct Hin as [Hin | [Hin | [Hin | Hin]]].
        -- apply list_elem_of_singleton in Hin. injection Hin as Hn _ _.
           symmetry in Hn. by apply mount_not_automount in Hn.
        -- apply Hev1 in Hin as [u Hu]. discriminate Hu.
        -- apply list_elem_of_singleton in Hin. injection Hin as _ <- _.
           apply String.eqb_neq in Ha. subst new. rewrite Ha. done.
        -- specialize (Hbwd n a s Hin Ha).
           destruct new; [done | done].
Qed.

Lemma restart_phase_log (sd : systemd) (names : list string) (l : log) :
  exists r evs,
    for_each names (fun name =>
      do _ <~ reset_failed sd (name +:+ ".automount");
      start_unit sd (name +:+ ".automount")) l = (r, l ++ evs) /\
    (forall u, count_stops u evs = 0).
Proof.
  revert l. induction names as [|name rest IH]; intros l.
  - exists (Ok tt), []. cbn. by rewrite app_nil_r.
  - cbn [for_each]. unfold bind at 1 2, reset_failed at 1.
    destruct (call_reset_failed_unit sd l (name +:+ ".automount"))
      as [[]|e]; cbn [answered].
    2:{ eexists _, [_]. split; [reflexivity | done]. }
    unfold start_unit at 1.
    match goal with |- context [call_start_unit sd ?h ?u ?m] =>
      destruct (call_start_unit sd h u m) as [[]|e] end; cbn [answered].
    2:{ exists (Raise e),
          [Ev (ResetFailed (name +:+ ".automount")) Done;
           Ev (Start (name +:+ ".automount") "replace") (Failed e)].
        split; [| done]. by rewrite <- (assoc_L (++)). }
    match goal with |- context [for_each rest _ ?h] =>
      destruct (IH h) as (r & evs & Hrun & Hcnt) end.
    exists r, ([Ev (ResetFailed (name +:+ ".automount")) Done;
                Ev (Start (name +:+ ".automount") "replace") Done] ++ evs).
    split.
    + rewrite Hrun. f_equal. by rewrite <- !(assoc_L (++)).
    + intros u. rewrite count_stops_app, Hcnt. done.
Qed.

(** The stops of the two targets, read off the log of the run. *)
Lemma restart_stops_targets_log (sd : systemd) (mounts : list string)
    (l : log) :
  exists r evs,
    restart_all_mounts sd mounts l = (r, l ++ evs) /\
    count_stops "network-online.target" evs <= 1 /\
    count_stops "NetworkManager-wait-online.service" evs <= 1 /\
    (0 < count_stops "network-online.target" evs
         + count_stops "NetworkManager-wait-online.service" evs ->
     automount_fetched_inactive mounts evs) /\
    (r = Ok tt ->
     (automount_fetched_inactive mounts evs <->
      count_stops "network-online.target" evs = 1 /\
      count_stops "NetworkManager-wait-online.service" evs = 1)).
Proof.
  unfold restart_all_mounts, bind at 1.
  destruct (collect_automounts_log sd mounts [] l)
    as (r0 & evs0 & Hrun0 & Hcnt0 & Hok0).
  rewrite Hrun0. destruct r0 as [acc|e0].
  2:{ exists (Raise e0), evs0. rewrite !Hcnt0.
      split; [done |]. split; [lia |]. split; [lia |].
      split; [lia |]. intros [=]. }
  destruct (Hok0 acc eq_refl) as (extra & Hacc & Hfwd & Hbwd).
  cbn in Hacc. subst extra. destruct acc as [|n ns].
  { exists (Ok tt), evs0. rewrite !Hcnt0. unfold ret.
    split; [done |]. split; [lia |]. split; [lia |]. split; [lia |].
    intros _. split; [| intros [[=] _]].
    intros (n & a & s & _ & Hev & Ha). by destruct (Hbwd n a s Hev Ha). }
  assert (Hin : automount_fetched_inactive mounts evs0) by by apply Hfwd.
  unfold bind at 1, stop_unit at 1.
  destruct (call_stop_unit sd (l ++ evs0) "network-online.target" "replace")
    as [[]|e1]; cbn [answered].
  2:{ eexists _, (evs0 ++ [_]). split; [by rewrite (assoc_L (++)) |].
      rewrite !count_stops_app, !Hcnt0. cbn.
      split; [lia |]. split; [lia |].
      split; [intros _; by apply automount_fetched_inactive_app |].
      intros [=]. }
  unfold bind at 1, stop_unit at 1.
  match goal with |- context [call_stop_unit sd ?h ?u ?m] =>
    destruct (call_stop_unit sd h u m) as [[]|e2] end; cbn [answered].
  2:{ eexists _, (evs0 ++ [_; _]). split.
      - f_equal. by rewrite <- !(assoc_L (++)).
      - rewrite !count_stops_app, !Hcnt0. cbn.
        split; [lia |]. split; [lia |].
        split; [intros _; by apply automount_fetched_inactive_app |].
        intros [=]. }
  match goal with |- context [for_each (n :: ns) _ ?h] =>
    destruct (restart_phase_log sd (n :: ns) h) as (r & evs & Hrun & Hcnt)
  end.
  exists r,
    (evs0 ++ [Ev (Stop "network-online.target" "replace") Done;
              Ev (Stop "NetworkManager-wait-online.service" "replace") Done]
          ++ evs).
  split.
  - rewrite Hrun. f_equal. by rewrite <- !(assoc_L (++)).
  - rewrite !count_stops_app, !Hcnt0, !Hcnt. cbn.
    split; [lia |]. split; [lia |].
    split; [intros _; by apply automount_fetched_inactive_app |].
    intros _. split; [done |].
    intros _. by apply automount_fetched_inactive_app.
Qed.

Lemma emitted_of_run {A} (c : M log A) (l evs : log) (r : result A) :
  c l = (r, l ++ evs) -> emitted c l = evs.
Proof.
  intros E. unfold emitted. rewrite E. cbn. by rewrite drop_app_length.
Qed.

(** With every automount reported active the first loop records nothing. *)
Lemma collect_automounts_none_recorded (sd : systemd)
    (names acc : list string) (l : log) :
  every_automount_active sd names ->
  exists r evs,
    collect_automounts sd names acc l = (r, l ++ evs) /\
    (forall acc', r = Ok acc' -> acc' = acc).
Proof.
  revert acc l. induction names as [|name rest IH]; intros acc l Hact.
  - exists (Ok acc), []. cbn. rewrite app_nil_r. split; [done |].
    by intros acc' [= <-].
  - cbn [collect_automounts]. unfold bind at 1, get_unit_status at 1.
    destruct (unit_status sd l (name +:+ ".mount")) as [[a0 s0]|e].
    2:{ eexists _, [_]. split; [reflexivity | intros acc' [=]]. }
    set (ev0 := Ev (Status (name +:+ ".mount")) (Fetched a0 s0)).
    assert (Hreset : exists r1 evs1,
      (if String.eqb a0 "failed"
       then reset_failed sd (name +:+ ".mount") else ret tt) (l ++ [ev0]) =
        (r1, (l ++ [ev0]) ++ evs1)).
    { destruct (String.eqb a0 "failed").
      - by eexists _, [_].
      - exists (Ok tt), []. cbn. by rewrite app_nil_r. }
    destruct Hreset as (r1 & evs1 & Hrun1).
    unfold bind at 1. rewrite Hrun1. destruct r1 as [[]|e1].
    2:{ exists (Raise e1), (ev0 :: evs1).
        split; [by rewrite <- (assoc_L (++)) | intros acc' [=]]. }
    unfold bind at 1, get_unit_status at 1.
    destruct (unit_status sd ((l ++ [ev0]) ++ evs1) (name +:+ ".automount"))
      as [[a1 s1]|e2] eqn:E2.
    2:{ eexists _, (ev0 :: evs1 ++ [_]).
        split; [f_equal; rewrite <- !(assoc_L (++)); reflexivity
               | intros acc' [=]]. }
    assert (Ha1 : a1 = "active").
    { apply (Hact _ name a1 s1) in E2; [done | by constructor]. }
    subst a1. change (negb (String.eqb "active" "active")) with false.
    cbv iota.
    match goal with |- context [collect_automounts sd rest acc ?h] =>
      destruct (IH acc h) as (r & evs & Hrun & Hok) end.
    { intros h n a s Hn. apply Hact. by constructor. }
    exists r, (ev0 :: evs1
               ++ Ev (Status (name +:+ ".automount")) (Fetched "active" s1)
               :: evs).
    split; [| done].
    rewrite Hrun. f_equal. rewrite <- !(assoc_L (++)). reflexivity.
Qed.

(** On a manager that answers every read and refuses nothing, the first
    loop returns, and it has recorded a name when some automount is reported
    in a state other than active. *)
Lemma collect_automounts_succeeds (sd : systemd) (names acc : list string)
    (l : log) :
  reads_succeed sd names ->
  never_fails sd ->
  exists extra evs,
    collect_automounts sd names acc l = (Ok (acc ++ extra), l ++ evs) /\
    (some_automount_inactive sd names -> extra <> []).
Proof.
  intros Hreads Hnf. revert acc l Hreads.
  induction names as [|name rest IH]; intros acc l Hreads.
  - exists [], []. cbn. rewrite !app_nil_r. split; [done |].
    intros (n & Hn & _). by apply elem_of_nil in Hn.
  - cbn [collect_automounts]. unfold bind at 1, get_unit_status at 1.
    assert (Hname : name ∈ name :: rest) by by constructor.
    destruct (Hreads l name Hname) as [(a0 & s0 & ->) _].
    set (ev0 := Ev (Status (name +:+ ".mount")) (Fetched a0 s0)).
    assert (Hreset : exists evs1,
      (if String.eqb a0 "failed"
       then reset_failed sd (name +:+ ".mount") else ret tt) (l ++ [ev0]) =
        (Ok tt, (l ++ [ev0]) ++ evs1)).
    { destruct Hnf as (Hrf & _). destruct (String.eqb a0 "failed").
      - unfold reset_failed. rewrite Hrf. by eexists [_].
      - exists []. cbn. by rewrite app_nil_r. }
    destruct Hreset as (evs1 & Hrun1).
    unfold bind at 1. rewrite Hrun1.
    unfold bind at 1, get_unit_status at 1.
    destruct (Hreads ((l ++ [ev0]) ++ evs1) name Hname)
      as [_ (a1 & s1 & E2)].
    rewrite E2.
    set (new := if negb (String.eqb a1 "active") then [name] else []).
    assert (Hacc : (if negb (String.eqb a1 "active")
                    then acc ++ [name] else acc) = acc ++ new).
    { unfold new. destruct (negb _); [done | by rewrite app_nil_r]. }
    rewrite Hacc.
    match goal with |- context [collect_automounts sd rest _ ?h] =>
      destruct (IH (acc ++ new) h) as (extra & evs & Hrun & Hrec) end.
    { intros h n Hn. apply Hreads. by constructor. }
    exists (new ++ extra),
      (ev0 :: evs1
       ++ Ev (Status (name +:+ ".automount")) (Fetched a1 s1) :: evs).
    split.
    + rewrite Hrun, (assoc_L (++)). f_equal.
      rewrite <- !(assoc_L (++)). reflexivity.
    + intros (n & Hn & Hina). apply elem_of_cons in Hn as [-> | Hn].
      * apply Hina in E2. apply String.eqb_neq in E2.
        subst new. by rewrite E2.
      * assert (Hextra : extra <> []) by (apply Hrec; by exists n).
        destruct new; [done | done].
Qed.

Lemma restart_phase_succeeds (sd : systemd) (names : list string) (l : log) :
  never_fails sd ->
  exists evs,
    for_each names (fun name =>
      do _ <~ reset_failed sd (name +:+ ".automount");
      start_unit sd (name +:+ ".automount")) l = (Ok tt, l ++ evs).
Proof.
  intros (Hrf & _ & Hst). revert l.
  induction names as [|name rest IH]; intros l.
  - exists []. cbn. by rewrite app_nil_r.
  - cbn [for_each]. unfold bind at 1 2, reset_failed at 1, start_unit at 1.
    rewrite Hrf, Hst. cbn [answered].
    match goal with |- context [for_each rest _ ?h] =>
      destruct (IH h) as (evs & Hrun) end.
    rewrite Hrun. eexists. rewrite <- !(assoc_L (++)). reflexivity.
Qed.

(** With every automount reported active the run records nothing and ends
    after the first loop. *)
Lemma restart_ends_after_reads (sd : systemd) (mounts : list string)
    (l : log) :
  every_automount_active sd mounts ->
  forall u, count_stops u (emitted (restart_all_mounts sd mounts) l) = 0.
Proof.
  intros Hact u.
  destruct (collect_automounts_none_recorded sd mounts [] l Hact)
    as (r0 & evs0 & Hrun0 & Hsame).
  destruct (collect_automounts_log sd mounts [] l)
    as (r0' & evs0' & Hrun0' & Hcnt0 & _).
  rewrite Hrun0 in Hrun0'. injection Hrun0' as <- Hevs.
  apply app_inv_head in Hevs as <-.
  assert (Hrun : exists r, restart_all_mounts sd mounts l = (r, l ++ evs0)).
  { unfold restart_all_mounts, bind. rewrite Hrun0.
    destruct r0 as [acc|e]; [| by eexists].
    rewrite (Hsame acc eq_refl). by eexists. }
  destruct Hrun as [r Hrun]. by rewrite (emitted_of_run _ _ _ _ Hrun).
Qed.

(** On a manager that answers every read and refuses nothing, the run
    returns, and it has stopped the two targets when some automount is
    reported in a state other than active. *)
Lemma restart_returns_and_stops (sd : systemd) (mounts : list string)
    (l : log) :
  reads_succeed sd mounts ->
  never_fails sd ->
  exists evs,
    restart_all_mounts sd mounts l = (Ok tt, l ++ evs) /\
    (some_automount_inactive sd mounts ->
     0 < count_stops "network-online.target" evs).
Proof.
  intros Hreads Hnf.
  destruct (collect_automounts_succeeds sd mounts [] l Hreads Hnf)
    as (extra & evs0 & Hrun0 & Hrec).
  cbn [app] in Hrun0. unfold restart_all_mounts, bind at 1. rewrite Hrun0.
  destruct extra as [|n ns].
  - exists evs0. split; [done |]. intros Hin. by destruct (Hrec Hin).
  - unfold bind at 1 2, stop_unit.
    destruct Hnf as (Hrf & Hstop & Hst). rewrite !Hstop. cbn [answered].
    match goal with |- context [for_each (n :: ns) _ ?h] =>
      destruct (restart_phase_succeeds sd (n :: ns) h) as (evs & Hrun)
    end; [done |].
    rewrite Hrun.
    exists (evs0
            ++ [Ev (Stop "network-online.target" "replace") Done;
                Ev (Stop "NetworkManager-wait-online.service" "replace") Done]
            ++ evs).
    split; [f_equal; by rewrite <- !(assoc_L (++)) |].
    intros _. rewrite !count_stops_app. cbn. lia.
Qed.

Lemma steady_reads_succeed (states : string -> string * string)
    (mounts : list string) :
  reads_succeed (steady states) mounts.
Proof.
  intros h name _. cbn. split.
  - destruct (states (name +:+ ".mount")) as [a s]. by exists a, s.
  - destruct (states (name +:+ ".automount")) as [a s]. by exists a, s.
Qed.

(** C8. Whatever the mount list and whatever the manager answers,
    [restart_all_mounts] asks network-online.target and
    NetworkManager-wait-online.service to stop at most once each, never once
    per mount, and only if some configured automount was fetched with a state
    other than active; with every automount reported active it asks for no
    such stop; and on a manager that answers every read and refuses nothing
    it returns and, with some automount reported not active, has asked for
    exactly one stop of each.  So for every assignment of unit statuses the
    two targets are stopped exactly once each if and only if some configured
    automount is not active, and not at all when all are active. *)
Theorem restart_stops_targets_once :
  (forall (sd : systemd) (mounts : list string) (l : log),
    exists r evs,
      restart_all_mounts sd mounts l = (r, l ++ evs) /\
      count_stops "network-online.target" evs <= 1 /\
      count_stops "NetworkManager-wait-online.service" evs <= 1 /\
      (0 < count_stops "network-online.target" evs
           + count_stops "NetworkManager-wait-online.service" evs ->
       automount_fetched_inactive mounts evs) /\
      (r = Ok tt ->
       (automount_fetched_inactive mounts evs <->
        count_stops "network-online.target" evs = 1 /\
        count_stops "NetworkManager-wait-online.service" evs = 1)) /\
      (every_automount_active sd mounts ->
       count_stops "network-online.target" evs = 0 /\
       count_stops "NetworkManager-wait-online.service" evs = 0) /\
      (reads_succeed sd mounts -> never_fails sd ->
       r = Ok tt /\
       (some_automount_inactive sd mounts ->
        count_stops "network-online.target" evs = 1 /\
        count_stops "NetworkManager-wait-online.service" evs = 1))) /\
  (forall (states : string -> string * string) (mounts : list string)
          (l : log),
    let evs := emitted (restart_all_mounts (steady states) mounts) l in
    ((exists name, name ∈ mounts /\
        fst (states (name +:+ ".automount")) <> "active") <->
     count_stops "network-online.target" evs = 1 /\
     count_stops "NetworkManager-wait-online.service" evs = 1) /\
    ((forall name, name ∈ mounts ->
        fst (states (name +:+ ".automount")) = "active") ->
     count_stops "network-online.target" evs = 0 /\
     count_stops "NetworkManager-wait-online.service" evs = 0)).
Proof.
  assert (General : forall sd mounts l,
    exists r evs,
      restart_all_mounts sd mounts l = (r, l ++ evs) /\
      count_stops "network-online.target" evs <= 1 /\
      count_stops "NetworkManager-wait-online.service" evs <= 1 /\
      (0 < count_stops "network-online.target" evs
           + count_stops "NetworkManager-wait-online.service" evs ->
       automount_fetched_inactive mounts evs) /\
      (r = Ok tt ->
       (automount_fetched_inactive mounts evs <->
        count_stops "network-online.target" evs = 1 /\
        count_stops "NetworkManager-wait-online.service" evs = 1)) /\
      (every_automount_active sd mounts ->
       count_stops "network-online.target" evs = 0 /\
       count_stops "NetworkManager-wait-online.service" evs = 0) /\
      (reads_succeed sd mounts -> never_fails sd ->
       r = Ok tt /\
       (some_automount_inactive sd mounts ->
        count_stops "network-online.target" evs = 1 /\
        count_stops "NetworkManager-wait-online.service" evs = 1))).
  { intros sd mounts l.
    destruct (restart_stops_targets_log sd mounts l)
      as (r & evs & Hrun & Hle1 & Hle2 & Honly & Hiff).
    exists r, evs. split_and!; try done.
    - intros Hact.
      pose proof (restart_ends_after_reads sd mounts l Hact) as Hzero.
      rewrite (emitted_of_run _ _ _ _ Hrun) in Hzero. by rewrite !Hzero.
    - intros Hreads Hnf.
      destruct (restart_returns_and_stops sd mounts l Hreads Hnf)
        as (evs' & Hrun' & Hstops).
      rewrite Hrun in Hrun'. injection Hrun' as -> Hevs.
      apply app_inv_head in Hevs as <-.
      split; [done |]. intros Hin. apply Hiff; [done |].
      apply Honly. specialize (Hstops Hin). lia. }
  split; [exact General |].
  intros states mounts l evs.
  destruct (General (steady states) mounts l)
    as (r & evs' & Hrun & _ & _ & _ & _ & Hzero & Hone).
  subst evs. rewrite (emitted_of_run _ _ _ _ Hrun).
  destruct (Hone (steady_reads_succeed states mounts)
              (steady_never_fails states)) as [_ Hone'].
  assert (Hall : (forall name, name ∈ mounts ->
                    fst (states (name +:+ ".automount")) = "active") ->
                 count_stops "network-online.target" evs' = 0 /\
                 count_stops "NetworkManager-wait-online.service" evs' = 0).
  { intros Hact. apply Hzero. intros h name a s Hn [= E].
    rewrite <- (Hact name Hn). by rewrite E. }
  split; [| exact Hall]. split.
  - intros (name & Hn & Hna). apply Hone'. exists name. split; [done |].
    intros h a s [= E]. rewrite E in Hna. exact Hna.
  - intros [H1 _].
    destruct (decide (Exists (fun name =>
        fst (states (name +:+ ".automount")) <> "active") mounts))
      as [Hex | Hnex].
    + apply Exists_exists in Hex as (name & Hn & Hna). by exists name.
    + destruct Hall as [H0 _]; [| lia].
      intros name Hn.
      destruct (decide (fst (states (name +:+ ".automount")) = "active"))
        as [|Hna]; [done |].
      destruct Hnex. apply Exists_exists. by exists name.
Qed.

Lemma restart_stops_targets_once_witness :
  let evs := emitted (restart_all_mounts (steady media_failed_states)
                        ["nas"; "media"; "backup"]) [] in
  (count_stops "network-online.target" evs = 1 /\
   count_stops "NetworkManager-wait-online.service" evs = 1) /\
  (let evs := emitted (restart_all_mounts (steady all_active_states)
                         ["nas"; "media"; "backup"]) [] in
   count_stops "network-online.target" evs = 0 /\
   count_stops "NetworkManager-wait-online.service" evs = 0).
Proof.
  split.
  - apply (proj1 (proj2 restart_stops_targets_once media_failed_states
                    ["nas"; "media"; "backup"] [])).
    exists "media". split; [by repeat constructor | discriminate].
  - apply (proj2 (proj2 restart_stops_targets_once all_active_states
                    ["nas"; "media"; "backup"] [])).
    reflexivity.
Defined.

Example restart_two_mounts_one_inactive :
  let evs := snd (restart_all_mounts
    (steady (fun u => if String.eqb u "media.automount"
                      then ("failed", "failed") else ("active", "running")))
    ["nas"; "media"; "backup"] []) in
  count_stops "network-online.target" evs = 1 /\
  count_stops "NetworkManager-wait-online.service" evs = 1 /\
  calls_of evs =
    [Status "nas.mount"; Status "nas.automount";
     Status "media.mount"; Status "media.automount";
     Status "backup.mount"; Status "backup.automount";
     Stop "network-online.target" "replace";
     Stop "NetworkManager-wait-online.service" "replace";
     ResetFailed "media.automount"; Start "media.automount" "replace"].
Proof. repeat split; reflexivity. Qed.

End MountControlFacts.

(** ** The connectivity monitor *)

Module DbusMonitoringFacts.
Import DbusMonitoring.

Example get_device_id_last_segment :
  get_device_id (device_signal "/org/freedesktop/NetworkManager/Devices/2" 100)
  = "2".
Proof. reflexivity. Qed.

Example site_connecting_disconnected :
  calls (deliver (global_state_changed (fun _ => Ok tt)) [60; 40; 20]%Z init)
  = [awaited_stop_handler (Ok tt)].
Proof. reflexivity. Qed.

Lemma of_int_unknown (x : Z) :
  (forall s, NetworkManagerState.value s <> x) ->
  NetworkManagerState.of_int x = Raise ValueError.
Proof.
  intros H. unfold NetworkManagerState.of_int, NetworkManagerState.members.
  cbn [List.find].
  repeat match goal with
  | |- context [Z.eqb (NetworkManagerState.value ?s) x] =>
      destruct (Z.eqb_spec (NetworkManagerState.value s) x) as [E|_];
      [by destruct (H s) |]
  end.
  reflexivity.
Qed.

Lemma of_int_raises (x : Z) (e : exn) :
  NetworkManagerState.of_int x = Raise e -> e = ValueError.
Proof.
  unfold NetworkManagerState.of_int.
  destruct (List.find _ _); [discriminate | by intros [= <-]].
Qed.

(** One global signal, as a change of the monitor. *)
Lemma global_state_changed_step (stop_handler : list handler_call -> result unit)
    (x : Z) (w : state) :
  match derived_online x with
  | None => global_state_changed stop_handler x w = (Raise ValueError, w)
  | Some online =>
      snd (global_state_changed stop_handler x w) =
        {| device_list := device_list w;
           current_global_state := Some online;
           calls := calls w ++
             (if negb online
                 && negb (bool_decide (current_global_state w = Some false))
              then [awaited_stop_handler (stop_handler (calls w))] else []) |}
  end.
Proof.
  unfold derived_online, global_state_changed, bind, to_network_state, get.
  destruct (NetworkManagerState.of_int x) as [ns|e] eqn:E.
  - destruct w as [dl [[|]|] cs];
      destruct (in_global_online_state ns); cbn; by rewrite ?app_nil_r.
  - by rewrite (of_int_raises x e E).
Qed.

(** C7, counterexample: 5 is no NetworkManager state; the conversion raises
    ValueError and the handler passes it on to its caller. *)
Lemma global_state_changed_raises_on_5 :
  global_state_changed (fun _ => Ok tt) 5 init = (Raise ValueError, init) /\
  ~ ignores_unknown_state (fun _ => Ok tt) 5 init.
Proof.
  split; [reflexivity |]. intros H.
  assert (Hunk : forall s, NetworkManagerState.value s <> 5%Z)
    by (intros []; discriminate).
  specialize (H Hunk). discriminate H.
Qed.

(** C7, amended: on an integer that is no known NetworkManager state value
    the conversion raises ValueError before anything is read or written: the
    stop handler is not awaited, nothing is scheduled, the recorded states
    are as before, and the exception leaves the handler. *)
Theorem global_state_changed_unknown_state
    (stop_handler : list handler_call -> result unit) (x : Z) (w : state) :
  (forall s, NetworkManagerState.value s <> x) ->
  global_state_changed stop_handler x w = (Raise ValueError, w).
Proof.
  intros H. pose proof (global_state_changed_step stop_handler x w) as Hs.
  unfold derived_online in Hs. by rewrite (of_int_unknown x H) in Hs.
Qed.

Lemma global_state_changed_unknown_state_witness :
  global_state_changed (fun _ => Raise (DBusError "timeout")) 45
    {| device_list := {[ "2" := true ]};
       current_global_state := Some true;
       calls := [] |} =
  (Raise ValueError,
    {| device_list := {[ "2" := true ]};
       current_global_state := Some true;
       calls := [] |}).
Proof.
  apply global_state_changed_unknown_state. intros []; discriminate.
Defined.

(** One message, as a change of the monitor. *)
Lemma device_state_changed_step (message : Message) (w : state) :
  match observation message with
  | None => snd (device_state_changed message w) = w
  | Some (device_id, online) =>
      device_state_changed message w =
        (Ok false,
         {| device_list := <[device_id := online]> (device_list w);
            current_global_state := current_global_state w;
            calls := calls w ++
              (if online
                  && negb (bool_decide (device_list w !! device_id = Some true))
               then [created_task_restart_handler] else []) |})
  end.
Proof.
  unfold observation, device_state_changed.
  destruct (is_device_signal message); [| reflexivity].
  destruct (body message) as [|new_state rest]; [reflexivity |].
  unfold bind, first_item, get, set_device, create_task_restart_handler, ret.
  cbv beta iota zeta.
  generalize (in_device_online_state new_state) as online.
  generalize (get_device_id message) as device_id. intros device_id online.
  destruct w as [dl g cs]. cbn.
  destruct (dl !! device_id) as [recorded|] eqn:Hd.
  - destruct recorded, online; cbn; rewrite ?app_nil_r; try reflexivity;
      by rewrite (insert_id dl _ _ Hd).
  - destruct online; cbn; by rewrite ?app_nil_r.
Qed.

(** C9, counterexample: a signal of the device interface that carries no
    argument; reading its first argument raises. *)
Lemma device_state_changed_raises_without_body :
  device_state_changed bodyless_device_signal init = (Raise IndexError, init) /\
  ~ never_consumes bodyless_device_signal init.
Proof.
  split; [reflexivity |]. unfold never_consumes. cbn. discriminate.
Qed.

(** C9, amended: a message that is not a signal of the network-device
    interface is answered at once with False, the monitor unchanged and
    nothing scheduled; a signal of that interface that carries at least one
    argument is answered with False as well; one that carries none raises
    IndexError and leaves the monitor unchanged. *)
Theorem device_state_changed_not_consumed (message : Message) (w : state) :
  (is_device_signal message = false ->
   device_state_changed message w = (Ok false, w)) /\
  (body message <> [] -> fst (device_state_changed message w) = Ok false) /\
  (is_device_signal message = true -> body message = [] ->
   device_state_changed message w = (Raise IndexError, w)).
Proof.
  split; [| split].
  - intros H. unfold device_state_changed. by rewrite H.
  - intros Hb. pose proof (device_state_changed_step message w) as Hs.
    unfold observation in Hs. unfold device_state_changed in *.
    destruct (is_device_signal message); [| reflexivity].
    destruct (body message) as [|x rest]; [done |]. by rewrite Hs.
  - intros H Hb. unfold device_state_changed. by rewrite H, Hb.
Qed.

Lemma device_state_changed_not_consumed_witness :
  device_state_changed (state_changed_signal 70) device_2_online
    = (Ok false, device_2_online) /\
  fst (device_state_changed
         (device_signal "/org/freedesktop/NetworkManager/Devices/2" 30)
         device_2_online) = Ok false.
Proof.
  split.
  - apply (proj1 (device_state_changed_not_consumed
                    (state_changed_signal 70) device_2_online)).
    reflexivity.
  - apply (proj1 (proj2 (device_state_changed_not_consumed
                    (device_signal "/org/freedesktop/NetworkManager/Devices/2" 30)
                    device_2_online))).
    discriminate.
Defined.

Lemma omap_cons_case {A B} (f : A -> option B) (x : A) (l : list A) :
  omap f (x :: l) =
    match f x with Some y => y :: omap f l | None => omap f l end.
Proof. reflexivity. Qed.

Lemma stop_awaits_app (cs1 cs2 : list handler_call) :
  stop_awaits (cs1 ++ cs2) = stop_awaits cs1 + stop_awaits cs2.
Proof. unfold stop_awaits. by rewrite List.filter_app, length_app. Qed.

Lemma restart_tasks_app (cs1 cs2 : list handler_call) :
  restart_tasks (cs1 ++ cs2) = restart_tasks cs1 + restart_tasks cs2.
Proof. unfold restart_tasks. by rewrite List.filter_app, length_app. Qed.

(** A global signal that derives the value already recorded changes
    nothing. *)
Lemma global_state_changed_same (stop_handler : list handler_call -> result unit)
    (x : Z) (online : bool) (w : state) :
  derived_online x = Some online ->
  current_global_state w = Some online ->
  global_state_changed stop_handler x w = (Ok tt, w).
Proof.
  unfold derived_online, global_state_changed, bind, to_network_state, get.
  destruct (NetworkManagerState.of_int x) as [ns|e]; [| discriminate].
  intros [= <-] ->. by destruct (in_global_online_state ns).
Qed.

(** C5. A global signal whose derived online value equals the recorded one
    awaits no stop and changes nothing; and over any sequence of delivered
    values, whatever the stop handler does, the stop handler is awaited once
    for each transition into offline of the derived value and never
    otherwise, so that values that keep deriving offline add no further
    stop. *)
Theorem stop_once_per_offline_transition
    (stop_handler : list handler_call -> result unit) :
  (forall x online w,
      derived_online x = Some online ->
      current_global_state w = Some online ->
      global_state_changed stop_handler x w = (Ok tt, w)) /\
  (forall xs w,
      stop_awaits (calls (deliver (global_state_changed stop_handler) xs w)) =
      stop_awaits (calls w)
      + offline_transitions (current_global_state w) (omap derived_online xs)).
Proof.
  split; [apply global_state_changed_same |].
  induction xs as [|x xs IH]; intros w.
  - cbn. lia.
  - cbn [deliver]. rewrite IH, omap_cons_case.
    pose proof (global_state_changed_step stop_handler x w) as Hs.
    destruct (derived_online x) as [online|].
    + rewrite Hs. cbn [calls current_global_state offline_transitions].
      rewrite stop_awaits_app.
      destruct (negb online && _); cbn; lia.
    + by rewrite Hs.
Qed.

Lemma stop_once_per_offline_transition_witness :
  global_state_changed (fun _ => Ok tt) 20 offline_recorded
    = (Ok tt, offline_recorded) /\
  stop_awaits (calls (deliver (global_state_changed (fun _ => Ok tt))
                        [60; 40; 20; 5; 70; 30]%Z init)) =
    stop_awaits (calls init)
    + offline_transitions (current_global_state init)
        (omap derived_online [60; 40; 20; 5; 70; 30]%Z).
Proof.
  split.
  - apply (proj1 (stop_once_per_offline_transition (fun _ => Ok tt))
             20%Z false offline_recorded); reflexivity.
  - apply (proj2 (stop_once_per_offline_transition (fun _ => Ok tt))).
Defined.

(** C10. No sequence of global signals makes [global_state_changed] create
    a restart task or touch the device map, whatever the stop handler does;
    and a signal that takes the recorded global state to online, from offline
    or from unknown, records it and calls neither handler. *)
Theorem global_state_changed_never_restarts
    (stop_handler : list handler_call -> result unit) :
  (forall xs w,
      restart_tasks (calls (deliver (global_state_changed stop_handler) xs w))
        = restart_tasks (calls w) /\
      device_list (deliver (global_state_changed stop_handler) xs w)
        = device_list w) /\
  (forall x w,
      derived_online x = Some true ->
      current_global_state w <> Some true ->
      global_state_changed stop_handler x w =
        (Ok tt, {| device_list := device_list w;
                   current_global_state := Some true;
                   calls := calls w |})).
Proof.
  split.
  - induction xs as [|x xs IH]; intros w; [done |].
    cbn [deliver]. destruct (IH (snd (global_state_changed stop_handler x w)))
      as [-> ->].
    pose proof (global_state_changed_step stop_handler x w) as Hs.
    destruct (derived_online x) as [online|].
    + rewrite Hs. cbn [calls device_list]. rewrite restart_tasks_app.
      split; [| done]. destruct (negb online && _); cbn; lia.
    + by rewrite Hs.
  - unfold derived_online, global_state_changed, bind, to_network_state, get.
    intros x w. destruct (NetworkManagerState.of_int x) as [ns|e]; [| done].
    intros [= ->] Hw. destruct (current_global_state w) as [[|]|]; done.
Qed.

Lemma global_state_changed_never_restarts_witness :
  global_state_changed (fun _ => Raise (DBusError "timeout")) 70
    offline_recorded =
  (Ok tt, {| device_list := device_list offline_recorded;
             current_global_state := Some true;
             calls := calls offline_recorded |}).
Proof.
  apply (proj2 (global_state_changed_never_restarts
                  (fun _ => Raise (DBusError "timeout")))).
  - reflexivity.
  - discriminate.
Defined.

Lemma last_recorded_snoc (recorded : gmap string bool)
    (earlier : list (string * bool)) (d : string) (online : bool)
    (d' : string) :
  last_recorded recorded (earlier ++ [(d, online)]) d' =
    if decide (d = d') then Some online else last_recorded recorded earlier d'.
Proof.
  unfold last_recorded. rewrite rev_app_distr. cbn.
  destruct (String.eqb_spec d d') as [->|Hne].
  - by rewrite decide_True.
  - by rewrite decide_False.
Qed.

Lemma online_edges_deliver (recorded : gmap string bool)
    (messages : list Message) (earlier : list (string * bool)) (w : state) :
  (forall d, device_list w !! d = last_recorded recorded earlier d) ->
  restart_tasks (calls (deliver device_state_changed messages w)) =
    restart_tasks (calls w)
    + online_edges recorded earlier (omap observation messages).
Proof.
  revert earlier w. induction messages as [|m ms IH]; intros earlier w Hinv.
  - cbn. lia.
  - cbn [deliver]. rewrite omap_cons_case.
    pose proof (device_state_changed_step m w) as Hs.
    destruct (observation m) as [[d online]|].
    + rewrite Hs. cbn [snd online_edges].
      rewrite (IH (earlier ++ [(d, online)])).
      * cbn [calls]. rewrite restart_tasks_app, <- Hinv.
        destruct (online && _); cbn; lia.
      * intros d'. cbn [device_list]. rewrite last_recorded_snoc.
        destruct (decide (d = d')) as [->|Hne].
        -- by rewrite lookup_insert_eq.
        -- by rewrite lookup_insert_ne.
    + rewrite Hs. by apply IH.
Qed.

(** C6. Over any sequence of messages handed to [device_state_changed], the
    restart handler is scheduled once for each offline-to-online edge of a
    device, a device never seen before counting as not online, and at no
    other time; an online signal for a device already recorded online
    schedules nothing and changes nothing. *)
Theorem restart_once_per_online_edge :
  (forall messages w,
      restart_tasks (calls (deliver device_state_changed messages w)) =
      restart_tasks (calls w)
      + online_edges (device_list w) [] (omap observation messages)) /\
  (forall message device_id w,
      observation message = Some (device_id, true) ->
      device_list w !! device_id = Some true ->
      device_state_changed message w = (Ok false, w)) /\
  (forall message device_id w,
      observation message = Some (device_id, true) ->
      device_list w !! device_id <> Some true ->
      calls (snd (device_state_changed message w)) =
        calls w ++ [created_task_restart_handler]).
Proof.
  split; [| split].
  - intros messages w. by apply online_edges_deliver.
  - intros m d w Hobs Hd.
    pose proof (device_state_changed_step m w) as Hs. rewrite Hobs in Hs.
    rewrite Hs, Hd, (insert_id _ _ _ Hd). cbn. rewrite app_nil_r.
    by destruct w.
  - intros m d w Hobs Hd.
    pose proof (device_state_changed_step m w) as Hs. rewrite Hobs in Hs.
    rewrite Hs. cbn. by rewrite bool_decide_eq_false_2.
Qed.

Lemma restart_once_per_online_edge_witness :
  device_state_changed
    (device_signal "/org/freedesktop/NetworkManager/Devices/2" 100)
    device_2_online = (Ok false, device_2_online) /\
  calls (snd (device_state_changed
    (device_signal "/org/freedesktop/NetworkManager/Devices/3" 100)
    device_2_online)) =
  calls device_2_online ++ [created_task_restart_handler].
Proof.
  split.
  - apply (proj1 (proj2 restart_once_per_online_edge) _ "2"); reflexivity.
  - apply (proj2 (proj2 restart_once_per_online_edge) _ "3");
      [reflexivity | discriminate].
Defined.

Example online_edges_two_devices :
  restart_tasks (calls (deliver device_state_changed
    [device_signal "/org/freedesktop/NetworkManager/Devices/2" 100;
     device_signal "/org/freedesktop/NetworkManager/Devices/2" 100;
     device_signal "/org/freedesktop/NetworkManager/Devices/3" 80;
     device_signal "/org/freedesktop/NetworkManager/Devices/2" 30;
     state_changed_signal 70;
     device_signal "/org/freedesktop/NetworkManager/Devices/2" 100]
    init)) = 3.
Proof. reflexivity. Qed.

End DbusMonitoringFacts.

(** ** The kernel-log monitor *)

Module JournalctlMonitoringFacts.
Import JournalctlMonitoring.

Example stall_signature_cifs :
  matches (cifs_entry "nas") = true /\
  matches {[ "MESSAGE" :=
               Text "CIFS: VFS: cifs_mount failed w/return code = -113" ]}
    = false /\
  matches {[ "MESSAGE" :=
               Text "nfs: server nas has not responded, still trying" ]}
    = false.
Proof. repeat split; reflexivity. Qed.

Lemma matching_cons (entry : gmap string field)
    (batch : list (gmap string field)) :
  matching (entry :: batch) =
    (if matches entry then 1 else 0) + matching batch.
Proof. unfold matching. cbn. by destruct (matches entry). Qed.

(** One entry of the loop: it ends the loop with its error if it has one,
    makes the loop run the stop handler if it matches, and is passed over
    otherwise. *)
Lemma drain_with_cons {W} (stop_handler : M W unit)
    (entry : gmap string field) (rest : list (gmap string field)) (w : W) :
  drain_with stop_handler (entry :: rest) w =
    match entry_error entry with
    | Some e => (Raise e, w)
    | None =>
        if matches entry then
          match stop_handler w with
          | (Ok _, w') => drain_with stop_handler rest w'
          | (Raise e, w') => (Raise e, w')
          end
        else drain_with stop_handler rest w
    end.
Proof.
  unfold drain_with, entry_error, matches, stall_signature.
  cbn [for_each]. unfold bind at 1 2, getitem at 1.
  destruct (entry !! "MESSAGE") as [[text| |]|] eqn:Hm; try reflexivity.
  destruct (String.prefix "CIFS: VFS:" text
            && contains "has not responded" text); [| reflexivity].
  unfold bind at 1, getitem at 1.
  destruct (entry !! "__REALTIME_TIMESTAMP"); [| reflexivity].
  unfold bind at 1, getitem at 1. rewrite Hm. reflexivity.
Qed.

(** C3, counterexample: one wake drains two stall messages; the stop handler
    is awaited for the first and again for the second. *)
Lemma drain_stops_twice_for_two_matches :
  drain (fun _ => Ok tt) [cifs_entry "nas"; cifs_entry "media"] [] =
    (Ok tt, [awaited_stop_handler (Ok tt); awaited_stop_handler (Ok tt)]) /\
  ~ one_stop_per_batch (fun _ => Ok tt)
      [cifs_entry "nas"; cifs_entry "media"] [].
Proof.
  split; [reflexivity |]. intros H.
  assert (Hm : 0 < matching [cifs_entry "nas"; cifs_entry "media"])
    by (vm_compute; lia).
  specialize (H Hm). vm_compute in H. discriminate H.
Qed.

(** C3, amended: in the entries drained in one wake, only an entry whose
    message starts with "CIFS: VFS:" and contains "has not responded" makes
    the loop await the stop handler, and the loop awaits it once for each
    such entry, in arrival order: a drain that completes has awaited it as
    many times as the batch has matching entries, and one that is cut short
    by an exception not more often.  The drain completes when no entry has
    an error of its own and the stop handler does not fail. *)
Theorem drain_stops_once_per_matching_entry
    (stop_handler : list handler_call -> result unit)
    (batch : list (gmap string field)) (w : list handler_call) :
  exists r evs,
    drain stop_handler batch w = (r, w ++ evs) /\
    Forall (fun c => is_stop_await c = true) evs /\
    length evs <= matching batch /\
    (r = Ok tt -> length evs = matching batch) /\
    ((forall cs, stop_handler cs = Ok tt) ->
     Forall (fun entry => entry_error entry = None) batch ->
     r = Ok tt).
Proof.
  unfold drain. revert w. induction batch as [|entry rest IH]; intros w.
  - exists (Ok tt), []. cbn. rewrite app_nil_r. split_and!; auto.
  - rewrite drain_with_cons, matching_cons.
    destruct (entry_error entry) as [e|] eqn:He.
    { exists (Raise e), []. rewrite app_nil_r. split_and!.
      - reflexivity.
      - constructor.
      - cbn. lia.
      - intros [=].
      - intros _ Hall. apply Forall_cons in Hall as [Hall _]. congruence. }
    destruct (matches entry).
    + unfold await_stop_handler at 1.
      destruct (stop_handler w) as [[]|e] eqn:Hh.
      * destruct (IH (w ++ [awaited_stop_handler (Ok tt)]))
          as (r & evs & Hrun & Hall & Hle & Heq & Hok).
        exists r, (awaited_stop_handler (Ok tt) :: evs).
        split_and!.
        -- rewrite Hrun. by rewrite <- (assoc_L (++)).
        -- by constructor.
        -- cbn. lia.
        -- intros Hr. cbn. by rewrite (Heq Hr).
        -- intros Hh' Hent. apply Forall_cons in Hent as [_ Hent]. auto.
      * exists (Raise e), [awaited_stop_handler (Raise e)]. split_and!.
        -- reflexivity.
        -- by repeat constructor.
        -- cbn. lia.
        -- intros [=].
        -- intros Hh' _. rewrite Hh' in Hh. discriminate Hh.
    + destruct (IH w) as (r & evs & Hrun & Hall & Hle & Heq & Hok).
      exists r, evs. split_and!; auto.
      intros Hh' Hent. apply Forall_cons in Hent as [_ Hent]. auto.
Qed.

End JournalctlMonitoringFacts.

(** ** The recovery engine, further properties *)

Module MountControlShape.
Import MountControl.

Ltac forall_by_hyps :=
  cbn; repeat (constructor; [first [assumption | exact I] |]);
  constructor.

Lemma is_read_cons (name : string) (rest : list string) (cs : list unit_call) :
  Forall (is_read rest) cs -> Forall (is_read (name :: rest)) cs.
Proof.
  intros H. eapply Forall_impl; [exact H |].
  intros c (n & Hn & Hc). exists n. split; [by constructor | done].
Qed.

Lemma fail_stop_app {A} (r : result A) (evs1 evs2 : log) :
  Forall succeeded evs1 -> fail_stop r evs2 -> fail_stop r (evs1 ++ evs2).
Proof.
  intros H1. destruct r as [a|e]; cbn.
  - intros H2. by apply Forall_app.
  - intros (pre & ev & -> & Hpre & Hev). exists (evs1 ++ pre), ev.
    split; [by rewrite (assoc_L (++)) |]. split; [by apply Forall_app | done].
Qed.

Lemma fail_stop_raise {A} (ev : event) (e : exn) :
  outcome ev = Failed e -> @fail_stop A (Raise e) [ev].
Proof. intros H. exists [], ev. by repeat split. Qed.

Lemma answered_fail_stop (c : unit_call) (r : result unit) :
  fail_stop r [Ev c (answered r)].
Proof.
  destruct r as [[]|e]; cbn.
  - by repeat constructor.
  - by apply (@fail_stop_raise unit).
Qed.

(** The first loop, for any manager. *)
Lemma collect_automounts_shape (sd : systemd) (names acc : list string)
    (l : log) :
  exists r evs,
    collect_automounts sd names acc l = (r, l ++ evs) /\
    Forall (is_read names) (calls_of evs) /\
    length evs <= 3 * length names /\
    fail_stop r evs /\
    (forall acc', r = Ok acc' ->
       exists extra, acc' = acc ++ extra /\ sublist extra names).
Proof.
  revert acc l. induction names as [|name rest IH]; intros acc l.
  - exists (Ok acc), []. cbn. rewrite app_nil_r.
    repeat split; auto. intros acc' [= <-]. exists [].
    by rewrite app_nil_r.
  - assert (Hm : is_read (name :: rest) (Status (name +:+ ".mount")))
      by (exists name; split; [by constructor | auto]).
    assert (Hr : is_read (name :: rest) (ResetFailed (name +:+ ".mount")))
      by (exists name; split; [by constructor | auto]).
    assert (Ha : is_read (name :: rest) (Status (name +:+ ".automount")))
      by (exists name; split; [by constructor | auto]).
    cbn [collect_automounts]. unfold bind at 1, get_unit_status at 1.
    destruct (unit_status sd l (name +:+ ".mount")) as [[a0 s0]|e] eqn:E0.
    2:{ eexists _, [_]. split; [reflexivity |].
        split; [forall_by_hyps |]. split; [cbn; lia |].
        split; [by apply (@fail_stop_raise (list string)) | intros acc' [=]]. }
    set (ev0 := Ev (Status (name +:+ ".mount")) (Fetched a0 s0)).
    assert (Hreset : exists r1 evs1,
      (if String.eqb a0 "failed"
       then reset_failed sd (name +:+ ".mount") else ret tt) (l ++ [ev0]) =
        (r1, (l ++ [ev0]) ++ evs1) /\
      Forall (is_read (name :: rest)) (calls_of evs1) /\
      length evs1 <= 1 /\ fail_stop r1 evs1).
    { destruct (String.eqb a0 "failed").
      - eexists _, [_]. split; [reflexivity |].
        split; [forall_by_hyps |]. split; [done |].
        apply answered_fail_stop.
      - exists (Ok tt), []. cbn. rewrite app_nil_r.
        split; [done |]. split; [constructor |].
        split; [lia | constructor]. }
    destruct Hreset as (r1 & evs1 & Hrun1 & Hread1 & Hlen1 & Hfs1).
    assert (Hok0 : Forall succeeded [ev0]) by forall_by_hyps.
    unfold bind at 1. rewrite Hrun1.
    destruct r1 as [[]|e1].
    2:{ exists (Raise e1), ([ev0] ++ evs1). split.
        - by rewrite <- (assoc_L (++)).
        - split; [by constructor |]. split; [cbn; lia |].
          split; [by apply fail_stop_app | intros acc' [=]]. }
    unfold bind at 1, get_unit_status at 1.
    destruct (unit_status sd ((l ++ [ev0]) ++ evs1) (name +:+ ".automount"))
      as [[a1 s1]|e2] eqn:E2.
    2:{ exists (Raise e2),
          ([ev0] ++ evs1
           ++ [Ev (Status (name +:+ ".automount")) (Failed e2)]).
        split; [f_equal; by rewrite <- !(assoc_L (++)) |].
        split.
        { unfold calls_of. rewrite !map_app. cbn.
          constructor; [done |]. apply Forall_app. split; [done |].
          forall_by_hyps. }
        split; [rewrite !length_app; cbn; lia |].
        split; [| intros acc' [=]].
        apply fail_stop_app; [done |]. apply fail_stop_app; [done |].
        by apply (@fail_stop_raise (list string)). }
    set (ev1 := Ev (Status (name +:+ ".automount")) (Fetched a1 s1)).
    set (new := if negb (String.eqb a1 "active") then [name] else []).
    assert (Hacc : (if negb (String.eqb a1 "active")
                    then acc ++ [name] else acc) = acc ++ new).
    { unfold new. destruct (negb _); [done | by rewrite app_nil_r]. }
    rewrite Hacc.
    destruct (IH (acc ++ new) (((l ++ [ev0]) ++ evs1) ++ [ev1]))
      as (r & evs & Hrun & Hread & Hlen & Hfs & Hok).
    exists r, ([ev0] ++ evs1 ++ [ev1] ++ evs).
    split; [rewrite Hrun; f_equal; by rewrite <- !(assoc_L (++)) |].
    split.
    { unfold calls_of in *. rewrite !map_app. cbn.
      constructor; [done |]. apply Forall_app. split; [done |].
      constructor; [done |]. by apply is_read_cons. }
    split; [rewrite !length_app; cbn; lia |].
    split.
    { apply fail_stop_app; [done |]. apply fail_stop_app; [done |].
      apply fail_stop_app; [forall_by_hyps | done]. }
    intros acc' ->. destruct (Hok acc' eq_refl) as (extra & -> & Hsub).
    exists (new ++ extra). split; [by rewrite (assoc_L (++)) |].
    unfold new. destruct (negb _); cbn.
    + by apply sublist_skip.
    + by apply sublist_cons.
Qed.

(** The second loop, for any manager. *)
Lemma restart_phase_shape (sd : systemd) (names : list string) (l : log) :
  exists r evs,
    for_each names (fun name =>
      do _ <~ reset_failed sd (name +:+ ".automount");
      start_unit sd (name +:+ ".automount")) l = (r, l ++ evs) /\
    calls_of evs `prefix_of` flat_map restart_pair names /\
    (r = Ok tt -> calls_of evs = flat_map restart_pair names) /\
    fail_stop r evs.
Proof.
  revert l. induction names as [|name rest IH]; intros l.
  - exists (Ok tt), []. cbn. rewrite app_nil_r.
    split; [done |]. split; [by exists [] |]. split; [done | constructor].
  - cbn [for_each]. unfold bind at 1 2, reset_failed at 1.
    destruct (call_reset_failed_unit sd l (name +:+ ".automount"))
      as [[]|e]; cbn [answered].
    2:{ eexists _, [_]. split; [reflexivity |].
        split; [by eexists |]. split; [intros [=] |].
        by apply (@fail_stop_raise unit). }
    unfold start_unit at 1.
    match goal with |- context [call_start_unit sd ?h ?u ?m] =>
      destruct (call_start_unit sd h u m) as [[]|e] end; cbn [answered].
    2:{ exists (Raise e),
          [Ev (ResetFailed (name +:+ ".automount")) Done;
           Ev (Start (name +:+ ".automount") "replace") (Failed e)].
        split; [by rewrite <- (assoc_L (++)) |].
        split; [by eexists |]. split; [intros [=] |].
        exists [Ev (ResetFailed (name +:+ ".automount")) Done],
          (Ev (Start (name +:+ ".automount") "replace") (Failed e)).
        split_and!; [done | forall_by_hyps | done]. }
    match goal with |- context [for_each rest _ ?h] =>
      destruct (IH h) as (r & evs & Hrun & Hpre & Heq & Hfs) end.
    exists r, ([Ev (ResetFailed (name +:+ ".automount")) Done;
                Ev (Start (name +:+ ".automount") "replace") Done] ++ evs).
    split; [rewrite Hrun; f_equal; by rewrite <- !(assoc_L (++)) |].
    split; [| split].
    + unfold calls_of in *. cbn. by do 2 apply prefix_cons.
    + intros Hr. unfold calls_of in *. cbn. by rewrite (Heq Hr).
    + apply fail_stop_app; [forall_by_hyps | done].
Qed.

(** The whole of [restart_all_mounts], for any manager: reads, then acts. *)
Lemma restart_all_mounts_shape (sd : systemd) (mounts : list string)
    (l : log) :
  exists r reads acts restarted,
    restart_all_mounts sd mounts l = (r, l ++ reads ++ acts) /\
    Forall (is_read mounts) (calls_of reads) /\
    length reads <= 3 * length mounts /\
    sublist restarted mounts /\
    calls_of acts `prefix_of` restart_calls restarted /\
    (r = Ok tt -> calls_of acts = restart_calls restarted) /\
    fail_stop r (reads ++ acts).
Proof.
  unfold restart_all_mounts, bind at 1.
  destruct (collect_automounts_shape sd mounts [] l)
    as (r0 & evs0 & Hrun0 & Hread & Hlen & Hfs0 & Hok0).
  rewrite Hrun0. destruct r0 as [acc|e0].
  2:{ exists (Raise e0), evs0, [], []. rewrite app_nil_r.
      split_and!; try done; try apply sublist_nil_l; by exists []. }
  destruct (Hok0 acc eq_refl) as (extra & Hacc & Hsub).
  cbn in Hacc. subst extra. cbn in Hfs0.
  destruct acc as [|n ns].
  { exists (Ok tt), evs0, [], []. unfold ret. rewrite app_nil_r.
    split_and!; try done; try apply sublist_nil_l; by exists []. }
  unfold bind at 1, stop_unit at 1.
  set (c1 := Stop "network-online.target" "replace").
  set (c2 := Stop "NetworkManager-wait-online.service" "replace").
  destruct (call_stop_unit sd (l ++ evs0) "network-online.target"
              "replace") as [[]|e1]; cbn [answered].
  2:{ exists (Raise e1), evs0, [Ev c1 (Failed e1)], (n :: ns).
      split_and!; try done.
      - by rewrite (assoc_L (++)).
      - by eexists.
      - apply fail_stop_app; [done |]. by apply (@fail_stop_raise unit). }
  unfold bind at 1, stop_unit at 1.
  match goal with |- context [call_stop_unit sd ?h ?u ?m] =>
    destruct (call_stop_unit sd h u m) as [[]|e2] end; cbn [answered].
  2:{ exists (Raise e2), evs0, [Ev c1 Done; Ev c2 (Failed e2)], (n :: ns).
      split_and!; try done.
      - f_equal. by rewrite <- !(assoc_L (++)).
      - by eexists.
      - apply fail_stop_app; [done |].
        exists [Ev c1 Done], (Ev c2 (Failed e2)).
        split_and!; [done | forall_by_hyps | done]. }
  match goal with |- context [for_each (n :: ns) _ ?h] =>
    destruct (restart_phase_shape sd (n :: ns) h)
      as (r & evs & Hrun & Hpre & Heq & Hfs) end.
  exists r, evs0, ([Ev c1 Done; Ev c2 Done] ++ evs), (n :: ns).
  split_and!; try done.
  - rewrite Hrun. f_equal. by rewrite <- !(assoc_L (++)).
  - unfold calls_of in *. rewrite map_app. cbn [map app restart_calls].
    by do 2 apply prefix_cons.
  - intros Hr. unfold calls_of in *. rewrite map_app.
    cbn [map app restart_calls]. by rewrite (Heq Hr).
  - apply fail_stop_app; [done |].
    apply fail_stop_app; [forall_by_hyps | done].
Qed.

Lemma emitted_eq {A} (c : M log A) (l evs : log) (r : result A) :
  c l = (r, l ++ evs) -> emitted c l = evs.
Proof.
  intros E. unfold emitted. rewrite E. cbn. by rewrite drop_app_length.
Qed.

(** X1. For any mount list and any manager, [restart_all_mounts] reads
    first and acts afterwards.  Its calls are a first block made only of
    status reads of configured units and resets of configured mount units,
    followed by a second block that is the start of this sequence, and all
    of it on a normal return: stop network-online.target, stop
    NetworkManager-wait-online.service, then reset and start, in list order,
    every automount of a sublist of the configured mounts; the second block
    is empty when that sublist is. *)
Theorem restart_all_mounts_reads_then_acts (sd : systemd)
    (mounts : list string) (l : log) :
  exists r reads acts restarted,
    restart_all_mounts sd mounts l = (r, l ++ reads ++ acts) /\
    Forall (is_read mounts) (calls_of reads) /\
    sublist restarted mounts /\
    calls_of acts `prefix_of` restart_calls restarted /\
    (r = Ok tt -> calls_of acts = restart_calls restarted).
Proof.
  destruct (restart_all_mounts_shape sd mounts l)
    as (r & reads & acts & restarted & H1 & H2 & _ & H4 & H5 & H6 & _).
  by exists r, reads, acts, restarted.
Qed.

Lemma flat_map_restart_pair_start (names : list string)
    (before after : list unit_call) (u m : string) :
  flat_map restart_pair names = before ++ Start u m :: after ->
  exists before', before = before' ++ [ResetFailed u].
Proof.
  revert before. induction names as [|n ns IH]; intros before E.
  - by destruct before.
  - cbn in E. destruct before as [|x [|y before]].
    + discriminate E.
    + simplify_eq/=. by exists [].
    + cbn in E. injection E as <- <- E. destruct (IH before E) as [b' ->].
      by exists (ResetFailed (n +:+ ".automount")
                 :: Start (n +:+ ".automount") "replace" :: b').
Qed.

Lemma restart_calls_start (names : list string)
    (before after : list unit_call) (u m : string) :
  restart_calls names = before ++ Start u m :: after ->
  exists before', before = before' ++ [ResetFailed u].
Proof.
  destruct names as [|n ns]; [by destruct before |].
  cbn [restart_calls]. intros E.
  destruct before as [|x [|y before]]; try discriminate E.
  cbn [app] in E. injection E as <- <- E.
  destruct (flat_map_restart_pair_start (n :: ns) _ _ _ _ E) as [b' ->].
  by exists (Stop "network-online.target" "replace"
             :: Stop "NetworkManager-wait-online.service" "replace" :: b').
Qed.

Lemma is_read_not_start (mounts : list string) (u m : string) :
  ~ is_read mounts (Start u m).
Proof. by intros (n & _ & [H | [H | H]]). Qed.

(** X2. Whatever the manager answers, [restart_all_mounts] never starts a
    unit without having asked, in the call just before, to reset the failed
    state of that same unit. *)
Theorem start_follows_reset_failed (sd : systemd) (mounts : list string)
    (l : log) (before after : list unit_call) (u m : string) :
  calls_of (emitted (restart_all_mounts sd mounts) l)
    = before ++ Start u m :: after ->
  exists before', before = before' ++ [ResetFailed u].
Proof.
  destruct (restart_all_mounts_shape sd mounts l)
    as (r & reads & acts & restarted & Hrun & Hread & _ & _ & [k Hpre] & _).
  rewrite (emitted_eq _ _ _ _ Hrun). unfold calls_of in *.
  rewrite map_app. intros E.
  apply app_eq_app in E as [mid [[E1 E2] | [E1 E2]]].
  - destruct mid as [|x mid].
    + cbn in E2. rewrite <- E2 in Hpre.
      destruct restarted; discriminate Hpre.
    + injection E2 as <- _. rewrite E1 in Hread.
      apply Forall_app in Hread as [_ Hread].
      apply Forall_cons in Hread as [Hread _].
      by apply is_read_not_start in Hread.
  - rewrite E2, <- (assoc_L (++)) in Hpre. cbn in Hpre.
    destruct (restart_calls_start _ _ _ _ _ Hpre) as [b' ->].
    exists (map call reads ++ b'). by rewrite E1, (assoc_L (++)).
Qed.

Lemma start_follows_reset_failed_witness :
  exists before',
    [Status "data.mount"; ResetFailed "data.mount"; Status "data.automount";
     Stop "network-online.target" "replace";
     Stop "NetworkManager-wait-online.service" "replace";
     ResetFailed "data.automount"]
    = before' ++ [ResetFailed "data.automount"].
Proof.
  apply (start_follows_reset_failed (steady data_states) ["data"] []
           _ [] "data.automount" "replace").
  reflexivity.
Defined.

(** X3. [restart_all_mounts] ends with its first failing call: when it
    returns, none of its calls failed; when it raises, the exception is the
    one of the last call it made and every call before that one
    succeeded. *)
Theorem restart_all_mounts_fail_stop (sd : systemd) (mounts : list string)
    (l : log) :
  exists r evs,
    restart_all_mounts sd mounts l = (r, l ++ evs) /\ fail_stop r evs.
Proof.
  destruct (restart_all_mounts_shape sd mounts l)
    as (r & reads & acts & restarted & Hrun & _ & _ & _ & _ & _ & Hfs).
  by exists r, (reads ++ acts).
Qed.

Lemma restart_calls_length (names : list string) :
  length (restart_calls names) <= 2 + 2 * length names.
Proof.
  destruct names as [|n ns]; cbn [restart_calls length]; [lia |].
  assert (H : forall l, length (flat_map restart_pair l) = 2 * length l).
  { induction l as [|x xs IH]; cbn in *; lia. }
  rewrite H. cbn. lia.
Qed.

(** X4. One run of [restart_all_mounts] makes at most five calls per
    configured mount and two more. *)
Theorem restart_all_mounts_call_bound (sd : systemd) (mounts : list string)
    (l : log) :
  length (emitted (restart_all_mounts sd mounts) l) <= 5 * length mounts + 2.
Proof.
  destruct (restart_all_mounts_shape sd mounts l)
    as (r & reads & acts & restarted & Hrun & _ & Hlen & Hsub & [k Hpre] & _).
  rewrite (emitted_eq _ _ _ _ Hrun), length_app.
  pose proof (restart_calls_length restarted) as Hr.
  apply sublist_length in Hsub.
  rewrite Hpre, length_app in Hr. unfold calls_of in Hr.
  rewrite length_map in Hr. lia.
Qed.

Lemma string_app_inj_length (s1 s2 t1 t2 : string) :
  String.length s1 = String.length s2 ->
  s1 +:+ t1 = s2 +:+ t2 -> t1 = t2.
Proof.
  revert s2. induction s1 as [|c s1 IH]; intros [|d s2] Hlen E;
    try discriminate Hlen.
  - exact E.
  - injection Hlen as Hlen. injection E as _ E. by apply (IH s2).
Qed.

Lemma mount_not_target (name : string) :
  name +:+ ".mount" <> "network-online.target" /\
  name +:+ ".mount" <> "NetworkManager-wait-online.service".
Proof.
  split; intros E.
  - assert (Hlen : String.length name = String.length "network-online.").
    { apply (f_equal String.length) in E.
      rewrite MountControlFacts.string_length_app in E. cbn in E |- *. lia. }
    by apply (string_app_inj_length name "network-online." ".mount" "target")
      in Hlen.
  - assert (Hlen : String.length name
                   = String.length "NetworkManager-wait-online.s").
    { apply (f_equal String.length) in E.
      rewrite MountControlFacts.string_length_app in E. cbn in E |- *. lia. }
    by apply (string_app_inj_length name "NetworkManager-wait-online.s"
                ".mount" "ervice") in Hlen.
Qed.

Lemma elem_of_restart_calls (names : list string) (c : unit_call) :
  c ∈ restart_calls names ->
  c = Stop "network-online.target" "replace" \/
  c = Stop "NetworkManager-wait-online.service" "replace" \/
  exists n, c = ResetFailed (n +:+ ".automount") \/
            c = Start (n +:+ ".automount") "replace".
Proof.
  destruct names as [|n0 ns]; cbn [restart_calls].
  - intros H. by apply elem_of_nil in H.
  - rewrite !elem_of_cons. intros [-> | [-> | H]]; [by left | by right; left |].
    right; right. revert H. generalize (n0 :: ns) as l.
    induction l as [|n l IH]; cbn.
    + intros H. by apply elem_of_nil in H.
    + rewrite !elem_of_cons. intros [-> | [-> | H]]; [by eexists; left
        | by eexists; right | by apply IH].
Qed.

(** X5. Whatever the manager answers, [restart_all_mounts] never asks a
    mount unit to stop or to start: mount units are only read and reset. *)
Theorem restart_all_mounts_spares_mount_units (sd : systemd)
    (mounts : list string) (l : log) (name mode : string) :
  (Stop (name +:+ ".mount") mode
     ∉ calls_of (emitted (restart_all_mounts sd mounts) l)) /\
  (Start (name +:+ ".mount") mode
     ∉ calls_of (emitted (restart_all_mounts sd mounts) l)).
Proof.
  destruct (restart_all_mounts_shape sd mounts l)
    as (r & reads & acts & restarted & Hrun & Hread & _ & _ & [k Hpre] & _).
  rewrite (emitted_eq _ _ _ _ Hrun). unfold calls_of in *. rewrite map_app.
  assert (Hacts : forall c, c ∈ map call acts -> c ∈ restart_calls restarted).
  { intros c Hc. rewrite Hpre. apply elem_of_app. by left. }
  destruct (mount_not_target name) as [Ht1 Ht2].
  split; intros Hin; apply elem_of_app in Hin as [Hin | Hin].
  - rewrite Forall_forall in Hread. apply Hread in Hin.
    by destruct Hin as (n & _ & [H | [H | H]]).
  - apply Hacts, elem_of_restart_calls in Hin
      as [H | [H | [n [H | H]]]]; try discriminate H.
    + injection H as H _. by apply Ht1.
    + injection H as H _. by apply Ht2.
  - rewrite Forall_forall in Hread. apply Hread in Hin.
    by destruct Hin as (n & _ & [H | [H | H]]).
  - apply Hacts, elem_of_restart_calls in Hin
      as [H | [H | [n [H | H]]]]; try discriminate H.
    injection H as H _. by apply MountControlFacts.mount_not_automount in H.
Qed.

Lemma collect_automounts_steady (states : string -> string * string)
    (names acc : list string) (l : log) :
  exists evs,
    collect_automounts (steady states) names acc l =
      (Ok (acc ++ List.filter (needs_restart states) names), l ++ evs) /\
    calls_of evs = flat_map (reads_of states) names.
Proof.
  revert acc l. induction names as [|name rest IH]; intros acc l.
  - exists []. cbn. by rewrite !app_nil_r.
  - cbn [collect_automounts List.filter flat_map].
    unfold bind, get_unit_status, reads_of at 1.
    change (needs_restart states name)
      with (negb (String.eqb (fst (states (name +:+ ".automount"))) "active")).
    cbn [steady unit_status].
    destruct (states (name +:+ ".mount")) as [a0 s0].
    destruct (states (name +:+ ".automount")) as [a1 s1].
    cbn [fst].
    set (new := if negb (String.eqb a1 "active") then [name] else []).
    assert (Hacc : (if negb (String.eqb a1 "active")
                    then acc ++ [name] else acc) = acc ++ new).
    { unfold new. destruct (negb _); [done | by rewrite app_nil_r]. }
    assert (Hfil : (if negb (String.eqb a1 "active")
                    then name :: List.filter (needs_restart states) rest
                    else List.filter (needs_restart states) rest)
                   = new ++ List.filter (needs_restart states) rest).
    { unfold new. by destruct (negb _). }
    destruct (String.eqb a0 "failed");
      unfold reset_failed, ret; cbn [steady call_reset_failed_unit answered];
      rewrite Hacc, Hfil;
      match goal with |- context [collect_automounts _ rest _ ?h] =>
        destruct (IH (acc ++ new) h) as (evs & Hrun & Hcalls) end;
      rewrite Hrun; eexists; (split;
        [ rewrite <- !(assoc_L (++)); reflexivity
        | unfold calls_of in *; cbn; by rewrite Hcalls ]).
Qed.

Lemma restart_phase_steady (states : string -> string * string)
    (names : list string) (l : log) :
  exists evs,
    for_each names (fun name =>
      do _ <~ reset_failed (steady states) (name +:+ ".automount");
      start_unit (steady states) (name +:+ ".automount")) l
      = (Ok tt, l ++ evs) /\
    calls_of evs = flat_map restart_pair names.
Proof.
  revert l. induction names as [|name rest IH]; intros l.
  - exists []. cbn. by rewrite app_nil_r.
  - cbn [for_each]. unfold bind at 1 2, reset_failed at 1.
    cbn [steady call_reset_failed_unit answered].
    unfold start_unit at 1. cbn [steady call_start_unit answered].
    match goal with |- context [for_each rest _ ?h] =>
      destruct (IH h) as (evs & Hrun & Hcalls) end.
    rewrite Hrun. eexists. split.
    + rewrite <- !(assoc_L (++)). reflexivity.
    + unfold calls_of in *. cbn. by rewrite Hcalls.
Qed.

(** X6. On a manager that never fails and on which every unit keeps its
    state, [restart_all_mounts] returns, for any mount list, after exactly
    these calls: for each mount in list order, the status of its mount unit,
    its reset if that state is failed, and the status of its automount unit;
    then, if some automount is not active, the two stops followed by the
    reset and the start of each automount that is not active, in list
    order. *)
Theorem restart_all_mounts_steady (states : string -> string * string)
    (mounts : list string) (l : log) :
  exists evs,
    restart_all_mounts (steady states) mounts l = (Ok tt, l ++ evs) /\
    calls_of evs = steady_calls states mounts.
Proof.
  unfold restart_all_mounts, bind at 1, steady_calls.
  destruct (collect_automounts_steady states mounts [] l)
    as (evs0 & Hrun0 & Hcalls0).
  rewrite Hrun0. cbn [app].
  destruct (List.filter (needs_restart states) mounts) as [|n ns].
  - exists evs0. unfold ret. cbn [restart_calls]. by rewrite app_nil_r.
  - unfold bind at 1 2, stop_unit. cbn [steady call_stop_unit answered].
    match goal with |- context [for_each (n :: ns) _ ?h] =>
      destruct (restart_phase_steady states (n :: ns) h)
        as (evs & Hrun & Hcalls) end.
    rewrite Hrun. eexists. split.
    + rewrite <- !(assoc_L (++)). reflexivity.
    + unfold calls_of in *. rewrite !map_app, Hcalls0, Hcalls. reflexivity.
Qed.

End MountControlShape.

(** ** The connectivity monitor, further properties *)

Module DbusMonitoringMore.
Import DbusMonitoring.

Lemma split_nonempty (sep : Ascii.ascii) (s : string) : split sep s <> [].
Proof.
  destruct s as [|c rest]; cbn; [done |].
  destruct (Ascii.eqb c sep); [done |]. by destruct (split sep rest).
Qed.

(** X7. Joining the pieces of [split] with the separator gives the string
    back. *)
Theorem split_concat (sep : Ascii.ascii) (s : string) :
  String.concat (String sep EmptyString) (split sep s) = s.
Proof.
  induction s as [|c rest IH]; [reflexivity |].
  cbn [split]. pose proof (split_nonempty sep rest) as Hne.
  destruct (Ascii.eqb_spec c sep) as [->|Hc].
  - destruct (split sep rest) as [|first others]; [done |].
    change (String.concat (String sep EmptyString)
              (EmptyString :: first :: others))
      with (String sep (String.concat (String sep EmptyString)
                          (first :: others))).
    by rewrite IH.
  - destruct (split sep rest) as [|first [|other others]]; [done | |].
    + cbn in IH |- *. by rewrite IH.
    + change (String.concat (String sep EmptyString)
                (String c first :: other :: others))
        with (String c (String.concat (String sep EmptyString)
                          (first :: other :: others))).
      by rewrite IH.
Qed.

Lemma split_app_sep (sep : Ascii.ascii) (p d : string) :
  split sep (p +:+ String sep d) = split sep p ++ split sep d.
Proof.
  induction p as [|c p IH].
  - change (EmptyString +:+ String sep d) with (String sep d).
    cbn [split]. by rewrite Ascii.eqb_refl.
  - change (String c p +:+ String sep d) with (String c (p +:+ String sep d)).
    cbn [split]. rewrite IH. pose proof (split_nonempty sep p) as Hne.
    destruct (Ascii.eqb c sep); [done |].
    by destruct (split sep p) as [|first others].
Qed.

Lemma split_no_sep (sep : Ascii.ascii) (d : string) :
  occurs sep d = false -> split sep d = [d].
Proof.
  induction d as [|c d IH]; [done |]. cbn [occurs split].
  intros H. apply orb_false_iff in H as [-> H]. by rewrite (IH H).
Qed.

(** X8. The device id is the last segment of the path: for a path that
    ends with a slash followed by a name without slash, [get_device_id] is
    that name, whatever comes before. *)
Theorem get_device_id_is_last_segment (message : Message)
    (parent device : string) :
  path message = parent +:+ "/" +:+ device ->
  occurs "/" device = false ->
  get_device_id message = device.
Proof.
  intros Hpath Hdev. unfold get_device_id. rewrite Hpath.
  change ("/" +:+ device) with (String "/" device).
  rewrite split_app_sep, (split_no_sep _ _ Hdev). apply last_last.
Qed.

Lemma get_device_id_is_last_segment_witness :
  get_device_id
    (device_signal "/org/freedesktop/NetworkManager/Devices/12" 100) = "12".
Proof.
  apply (get_device_id_is_last_segment _ "/org/freedesktop/NetworkManager/Devices");
    reflexivity.
Defined.

Lemma split_pieces_no_sep (sep : Ascii.ascii) (s : string) :
  Forall (fun piece => occurs sep piece = false) (split sep s).
Proof.
  induction s as [|c rest IH]; [by repeat constructor |].
  cbn [split]. destruct (Ascii.eqb c sep) eqn:Hc.
  - by constructor.
  - pose proof (split_nonempty sep rest) as Hne.
    destruct (split sep rest) as [|first others]; [done |].
    apply Forall_cons in IH as [Hf Ho]. constructor; [| done].
    cbn. by rewrite Hc.
Qed.

(** X9. A device id never contains a slash, whatever the path of the
    message. *)
Theorem get_device_id_no_slash (message : Message) :
  occurs "/" (get_device_id message) = false.
Proof.
  unfold get_device_id.
  pose proof (split_pieces_no_sep "/" (path message)) as H.
  induction H as [|piece [|next pieces] Hp Hrest IH]; [done | done |].
  exact IH.
Qed.

Lemma device_list_deliver (recorded : gmap string bool)
    (messages : list Message) (earlier : list (string * bool)) (w : state) :
  (forall d, device_list w !! d = last_recorded recorded earlier d) ->
  forall d,
    device_list (deliver device_state_changed messages w) !! d =
      last_recorded recorded (earlier ++ omap observation messages) d.
Proof.
  revert earlier w. induction messages as [|m ms IH]; intros earlier w Hinv d.
  - cbn. by rewrite app_nil_r.
  - cbn [deliver]. rewrite DbusMonitoringFacts.omap_cons_case.
    pose proof (DbusMonitoringFacts.device_state_changed_step m w) as Hs.
    destruct (observation m) as [[d0 online]|].
    + rewrite Hs. cbn [snd].
      rewrite (IH (earlier ++ [(d0, online)])).
      * by rewrite <- (assoc_L (++)).
      * intros d'. cbn [device_list].
        rewrite DbusMonitoringFacts.last_recorded_snoc.
        destruct (decide (d0 = d')) as [->|Hne].
        -- by rewrite lookup_insert_eq.
        -- by rewrite lookup_insert_ne.
    + rewrite Hs. by apply IH.
Qed.

(** X10. After any sequence of messages, the device map holds for every
    device the value of its latest signal in the sequence, and what was
    recorded before for a device that had none. *)
Theorem device_list_tracks_last_observation (messages : list Message)
    (w : state) (device_id : string) :
  device_list (deliver device_state_changed messages w) !! device_id =
    last_recorded (device_list w) (omap observation messages) device_id.
Proof. by apply (device_list_deliver (device_list w) messages []). Qed.

(** X11. [device_state_changed] never touches the recorded global state,
    never awaits the stop handler, and never forgets a device: over any
    sequence of messages a device once recorded stays recorded. *)
Theorem device_state_changed_frame (messages : list Message) (w : state) :
  current_global_state (deliver device_state_changed messages w)
    = current_global_state w /\
  stop_awaits (calls (deliver device_state_changed messages w))
    = stop_awaits (calls w) /\
  (forall d, is_Some (device_list w !! d) ->
             is_Some (device_list (deliver device_state_changed messages w)
                      !! d)).
Proof.
  revert w. induction messages as [|m ms IH]; intros w; [done |].
  cbn [deliver].
  destruct (IH (snd (device_state_changed m w))) as (-> & -> & Hkeep).
  pose proof (DbusMonitoringFacts.device_state_changed_step m w) as Hs.
  destruct (observation m) as [[d0 online]|].
  - rewrite Hs in Hkeep |- *. cbn [snd current_global_state calls] in *.
    split; [done |]. split.
    + rewrite DbusMonitoringFacts.stop_awaits_app.
      destruct (online && _); cbn; lia.
    + intros d Hd. apply Hkeep. cbn [device_list].
      destruct (decide (d0 = d)) as [->|Hne].
      * rewrite lookup_insert_eq. by eexists.
      * by rewrite lookup_insert_ne.
  - rewrite Hs in Hkeep |- *. done.
Qed.

(** X12. After any sequence of delivered values, the recorded global state
    is the derived value of the latest one that names a known state, and is
    as before when none does. *)
Theorem current_global_state_tracks_last_signal
    (stop_handler : list handler_call -> result unit) (xs : list Z)
    (w : state) :
  current_global_state (deliver (global_state_changed stop_handler) xs w) =
    match last (omap derived_online xs) with
    | Some online => Some online
    | None => current_global_state w
    end.
Proof.
  revert w. induction xs as [|x xs IH]; intros w; [done |].
  cbn [deliver]. rewrite IH, DbusMonitoringFacts.omap_cons_case.
  pose proof (DbusMonitoringFacts.global_state_changed_step stop_handler x w)
    as Hs.
  destruct (derived_online x) as [online|].
  - rewrite Hs, last_cons. cbn [current_global_state].
    by destruct (last (omap derived_online xs)).
  - by rewrite Hs.
Qed.

(** X13. A stop that fails is not tried again: when the stop handler
    raises on a transition into offline, the exception leaves
    [global_state_changed], but offline is already recorded, so the next
    value that derives offline returns without awaiting the stop handler. *)
Theorem failed_stop_is_not_retried
    (stop_handler : list handler_call -> result unit) (x x' : Z) (w : state)
    (e : exn) :
  derived_online x = Some false ->
  current_global_state w <> Some false ->
  stop_handler (calls w) = Raise e ->
  derived_online x' = Some false ->
  let w1 := {| device_list := device_list w;
               current_global_state := Some false;
               calls := calls w ++ [awaited_stop_handler (Raise e)] |} in
  global_state_changed stop_handler x w = (Raise e, w1) /\
  global_state_changed stop_handler x' w1 = (Ok tt, w1).
Proof.
  intros Hx Hw He Hx' w1. split.
  - revert Hx. unfold derived_online, global_state_changed, bind,
      to_network_state, get.
    destruct (NetworkManagerState.of_int x) as [ns|]; [| done].
    intros [= ->].
    destruct (current_global_state w) as [[|]|] eqn:Hc; try done;
      cbn; unfold await_stop_handler, set_current_global_state; cbn;
      by rewrite He.
  - by apply (DbusMonitoringFacts.global_state_changed_same _ x' false).
Qed.

Lemma failed_stop_is_not_retried_witness :
  let w1 := {| device_list := device_list init;
               current_global_state := Some false;
               calls := calls init
                        ++ [awaited_stop_handler (Raise (DBusError "timeout"))] |} in
  global_state_changed stop_times_out_once 40 init
    = (Raise (DBusError "timeout"), w1) /\
  global_state_changed stop_times_out_once 20 w1 = (Ok tt, w1).
Proof.
  apply (failed_stop_is_not_retried stop_times_out_once 40 20 init
           (DBusError "timeout")); [reflexivity | discriminate | reflexivity
                                   | reflexivity].
Defined.

End DbusMonitoringMore.

(** ** The kernel-log monitor, further properties *)

Module JournalctlMonitoringMore.
Import JournalctlMonitoring.

Lemma for_each_app {St A} (xs ys : list A) (body : A -> M St unit) (w : St) :
  for_each (xs ++ ys) body w =
    match for_each xs body w with
    | (Ok _, w') => for_each ys body w'
    | (Raise e, w') => (Raise e, w')
    end.
Proof.
  revert w. induction xs as [|x xs IH]; intros w; [reflexivity |].
  cbn [app for_each]. unfold bind.
  destruct (body x w) as [[[]|e] w']; [apply IH | reflexivity].
Qed.

Lemma prefix_app_iff (s1 s2 : string) :
  String.prefix s1 s2 = true <-> exists rest, s2 = s1 +:+ rest.
Proof.
  revert s2. induction s1 as [|c s1 IH]; intros s2.
  - split; [by exists s2 | by destruct s2].
  - destruct s2 as [|d s2]; cbn [String.prefix].
    + split; [done | by intros [rest H]].
    + destruct (Ascii.ascii_dec c d) as [->|Hne].
      * rewrite IH. split; intros [rest H]; exists rest.
        -- by rewrite H.
        -- by injection H.
      * split; [done | intros [rest H]]. injection H as H _.
        by destruct Hne.
Qed.

Lemma contains_app_iff (needle s : string) :
  contains needle s = true <->
  exists before after, s = before +:+ needle +:+ after.
Proof.
  split.
  - induction s as [|c s IH]; cbn [contains].
    + intros H. apply prefix_app_iff in H as [rest H].
      by exists EmptyString, rest.
    + intros H. apply orb_true_iff in H as [H | H].
      * apply prefix_app_iff in H as [rest H]. by exists EmptyString, rest.
      * destruct (IH H) as (b & a & ->). by exists (String c b), a.
  - intros (b & a & ->). induction b as [|c b IH].
    + assert (H : String.prefix needle (needle +:+ a) = true)
        by (apply prefix_app_iff; by exists a).
      change (EmptyString +:+ needle +:+ a) with (needle +:+ a).
      destruct (needle +:+ a); cbn [contains]; [done |].
      by rewrite H.
    + change (String c b +:+ needle +:+ a)
        with (String c (b +:+ needle +:+ a)).
      cbn [contains]. rewrite IH. apply orb_true_r.
Qed.

(** X14. The test of the loop holds of a message exactly when the message
    begins with "CIFS: VFS:" and has "has not responded" somewhere in it. *)
Theorem stall_signature_iff (message : string) :
  stall_signature message = true <->
  (exists rest, message = "CIFS: VFS:" +:+ rest) /\
  (exists before after,
      message = before +:+ "has not responded" +:+ after).
Proof.
  unfold stall_signature.
  by rewrite andb_true_iff, prefix_app_iff, contains_app_iff.
Qed.

Lemma drain_app (stop_handler : list handler_call -> result unit)
    (batch1 batch2 : list (gmap string field)) (w : list handler_call) :
  drain stop_handler (batch1 ++ batch2) w =
    match drain stop_handler batch1 w with
    | (Ok _, w') => drain stop_handler batch2 w'
    | (Raise e, w') => (Raise e, w')
    end.
Proof. unfold drain, drain_with. apply for_each_app. Qed.

(** X15. The loop keeps nothing from one wake to the next: handling the
    batches of successive wakes is handling all their entries as one
    batch. *)
Theorem start_is_one_drain (stop_handler : list handler_call -> result unit)
    (wakes : list (list (gmap string field))) (w : list handler_call) :
  start stop_handler wakes w = drain stop_handler (concat wakes) w.
Proof.
  unfold start. revert w. induction wakes as [|batch rest IH]; intros w.
  - reflexivity.
  - cbn [for_each concat]. rewrite drain_app. unfold bind.
    destruct (drain stop_handler batch w) as [[[]|e] w']; [| reflexivity].
    apply IH.
Qed.

Lemma drain_all_handled (stop_handler : list handler_call -> result unit)
    (batch : list (gmap string field)) (w : list handler_call) :
  (forall cs, stop_handler cs = Ok tt) ->
  Forall (fun entry => entry_error entry = None) batch ->
  drain stop_handler batch w =
    (Ok tt, w ++ replicate (matching batch) (awaited_stop_handler (Ok tt))).
Proof.
  intros Hok Hall. revert w. unfold drain.
  induction Hall as [|entry rest He _ IH]; intros w.
  - cbn. by rewrite app_nil_r.
  - rewrite JournalctlMonitoringFacts.drain_with_cons, He,
      JournalctlMonitoringFacts.matching_cons.
    destruct (matches entry).
    + unfold await_stop_handler at 1. rewrite Hok, IH. cbn.
      by rewrite <- (assoc_L (++)).
    + by rewrite IH.
Qed.

(** X16. The first entry with an error of its own ends the drain with that
    error: KeyError for an entry without MESSAGE and for a stall message
    without __REALTIME_TIMESTAMP, TypeError for a MESSAGE in bytes,
    AttributeError for a MESSAGE of another kind.  With a stop handler that
    does not fail, the entries before it are handled, one stop for each that
    matches; no stop is awaited for the entry itself, and the entries after
    it are not looked at. *)
Theorem drain_stops_at_first_entry_error
    (stop_handler : list handler_call -> result unit)
    (before after : list (gmap string field)) (entry : gmap string field)
    (e : exn) (w : list handler_call) :
  (forall cs, stop_handler cs = Ok tt) ->
  Forall (fun entry => entry_error entry = None) before ->
  entry_error entry = Some e ->
  drain stop_handler (before ++ entry :: after) w =
    (Raise e,
     w ++ replicate (matching before) (awaited_stop_handler (Ok tt))).
Proof.
  intros Hok Hall He. rewrite drain_app.
  rewrite (drain_all_handled _ _ _ Hok Hall).
  unfold drain. by rewrite JournalctlMonitoringFacts.drain_with_cons, He.
Qed.

Lemma drain_stops_at_first_entry_error_witness :
  drain (fun _ => Ok tt)
    ([cifs_entry "nas"]
     ++ {[ "MESSAGE" := Text "CIFS: VFS: \\media has not responded" ]}
     :: [cifs_entry "backup"]) []
  = (Raise KeyError,
     [] ++ replicate (matching [cifs_entry "nas"])
             (awaited_stop_handler (Ok tt))).
Proof.
  apply (drain_stops_at_first_entry_error (fun _ => Ok tt)
           [cifs_entry "nas"] [cifs_entry "backup"]
           {[ "MESSAGE" := Text "CIFS: VFS: \\media has not responded" ]}
           KeyError []).
  - reflexivity.
  - repeat constructor.
  - reflexivity.
Defined.

(** X18. The loop reads nothing of an entry but its MESSAGE field and
    whether it has a __REALTIME_TIMESTAMP field: two batches whose entries
    agree on these two points, one by one, are handled alike, whatever the
    timestamps and the other fields hold. *)
Theorem drain_reads_message_and_timestamp_presence
    (stop_handler : list handler_call -> result unit)
    (batch1 batch2 : list (gmap string field)) (w : list handler_call) :
  Forall2 (fun e1 e2 =>
             e1 !! "MESSAGE" = e2 !! "MESSAGE" /\
             (is_Some (e1 !! "__REALTIME_TIMESTAMP") <->
              is_Some (e2 !! "__REALTIME_TIMESTAMP"))) batch1 batch2 ->
  drain stop_handler batch1 w = drain stop_handler batch2 w.
Proof.
  intros H. revert w. unfold drain.
  induction H as [|e1 e2 rest1 rest2 [Hm Ht] _ IH]; intros w; [reflexivity |].
  rewrite !JournalctlMonitoringFacts.drain_with_cons.
  assert (He : entry_error e1 = entry_error e2).
  { unfold entry_error. rewrite Hm.
    destruct (e2 !! "MESSAGE") as [[text| |]|]; try reflexivity.
    destruct (stall_signature text); [| reflexivity].
    destruct (e1 !! "__REALTIME_TIMESTAMP") as [t1|],
             (e2 !! "__REALTIME_TIMESTAMP") as [t2|]; try reflexivity.
    - destruct Ht as [Ht _]. by destruct Ht as [? [=]].
    - destruct Ht as [_ Ht]. by destruct Ht as [? [=]]. }
  assert (Hmt : matches e1 = matches e2) by (unfold matches; by rewrite Hm).
  rewrite He, Hmt. destruct (entry_error e2); [reflexivity |].
  destruct (matches e2); [| apply IH].
  destruct (await_stop_handler stop_handler w) as [[[]|e] w'];
    [apply IH | reflexivity].
Qed.

Lemma drain_reads_message_and_timestamp_presence_witness :
  drain (fun _ => Ok tt)
    [<[ "PRIORITY" := Other "4" ]>
       (<[ "__REALTIME_TIMESTAMP" := Other "datetime(2025, 1, 1, 0, 0, 0)" ]>
          (cifs_entry "nas"))] [] =
  drain (fun _ => Ok tt) [cifs_entry "nas"] [].
Proof.
  apply (drain_reads_message_and_timestamp_presence (fun _ => Ok tt)
           [<[ "PRIORITY" := Other "4" ]>
              (<[ "__REALTIME_TIMESTAMP" :=
                    Other "datetime(2025, 1, 1, 0, 0, 0)" ]>
                 (cifs_entry "nas"))]
           [cifs_entry "nas"] []).
  repeat constructor; intros _; by eexists.
Defined.

End JournalctlMonitoringMore.

(** ** The wiring of [main] *)

Module MainFacts.
Import MountControl JournalctlMonitoring.

Lemma stop_mounts_all (sd : systemd) (mounts : list string) (l : log) :
  never_fails sd ->
  exists evs,
    stop_mounts sd mounts l = (Ok tt, l ++ evs) /\
    calls_of evs = map stop_call mounts.
Proof.
  intros (_ & Hstop & _). unfold stop_mounts. revert l.
  induction mounts as [|name rest IH]; intros l.
  - exists []. cbn. by rewrite app_nil_r.
  - cbn [for_each]. unfold bind at 1, stop_unit at 1. rewrite Hstop.
    cbn [answered].
    destruct (IH (l ++ [Ev (Stop (name +:+ ".mount") "replace") Done]))
      as (evs & Hrun & Hcalls).
    eexists. split.
    + rewrite Hrun, <- (assoc_L (++)). reflexivity.
    + unfold calls_of in *. cbn. by rewrite Hcalls.
Qed.

(** X17. Wired as in [main], on a manager whose calls succeed, a drained
    batch in which no entry has an error of its own (every message is a
    text, every stall message has its timestamp) asks every configured mount
    to stop, in list order, once for each entry that matches the stall
    signature, and makes no other unit call. *)
Theorem journal_drain_stops_every_mount (sd : systemd)
    (mounts : list string) (batch : list (gmap string field)) (l : log) :
  never_fails sd ->
  Forall (fun entry => entry_error entry = None) batch ->
  exists evs,
    Main.journal_drain sd mounts batch l = (Ok tt, l ++ evs) /\
    calls_of evs =
      concat (replicate (matching batch) (map stop_call mounts)).
Proof.
  intros Hsd Hall. unfold Main.journal_drain. revert l.
  induction Hall as [|entry rest He _ IH]; intros l.
  - exists []. cbn. by rewrite app_nil_r.
  - rewrite JournalctlMonitoringFacts.drain_with_cons, He,
      JournalctlMonitoringFacts.matching_cons.
    destruct (matches entry).
    + destruct (stop_mounts_all sd mounts l Hsd) as (evs1 & Hrun1 & Hcalls1).
      rewrite Hrun1. destruct (IH (l ++ evs1)) as (evs & Hrun & Hcalls).
      exists (evs1 ++ evs). split.
      * by rewrite Hrun, (assoc_L (++)).
      * unfold calls_of in *. cbn. by rewrite map_app, Hcalls1, Hcalls.
    + destruct (IH l) as (evs & Hrun & Hcalls). by exists evs.
Qed.

Lemma journal_drain_stops_every_mount_witness :
  exists evs,
    Main.journal_drain (steady all_active_states) ["nas"; "media"]
      [cifs_entry "nas"; cifs_entry "nas"] [] = (Ok tt, [] ++ evs) /\
    calls_of evs =
      concat (replicate (matching [cifs_entry "nas"; cifs_entry "nas"])
                (map stop_call ["nas"; "media"])).
Proof.
  apply (journal_drain_stops_every_mount (steady all_active_states)
           ["nas"; "media"] [cifs_entry "nas"; cifs_entry "nas"] []).
  - repeat split.
  - repeat constructor.
Defined.

End MainFacts.
